(** * librarybot: the lending ledger of [librarybot.py]

    A shallow embedding of the commands of [src/librarybot.py] that read or
    write the SQLite database (tables [books], [users], [loans]), and the
    properties of the lending ledger stated over it.

    Modelling conventions.
    - A table with a primary key is a finite map from the key to the other
      columns ([books] by [isbn], [users] by [userid]); [loans] has no key
      and is the list of its rows in insertion order.
    - A [datetime] is the integer number of microseconds since a fixed
      midnight; a [timedelta] is a number of microseconds.  Timestamps are
      stored as the text [str(datetime)]; the model keeps the [datetime] a
      stored text denotes and writes out where the text is parsed back
      ([strptime_f]).
    - The commands are modelled on well-formed inputs ([well_formed]
      below): texts spliced into SQL between apostrophes have no
      apostrophe, so that [isbn IS '...'] selects by equality with the
      text; integers spliced or computed stay within SQLite's 64-bit
      INTEGER; dates computed stay within [datetime.min .. datetime.max].
      Outside, SQLite parses another statement, turns the number into a
      REAL, or Python raises OverflowError; none of that is modelled, and
      the properties below are stated for well-formed commands.
    - The availability of a book is an integer, and a [userid] given as
      text is the integer it denotes, which is what the INTEGER affinity
      of the column compares it as.
    - Every [datetime.datetime.now()] of the source is an explicit clock
      reading passed to the command.
    - The random emoji appended to some messages is cosmetic and left out;
      a message is a constructor of [message] named after its text.
    - Each command runs its database statements without an [await] between
      them, so a command is one step on the database. *)

From Stdlib Require Import ZArith Lia.
From stdpp Require Import base option gmap list strings.
From Stdlib Require Import Ascii.

Local Open Scope Z_scope.

(** ** Configuration (config.yml) *)

Record config := Config {
  ADMIN_USER : Z;
  LOAN_PERIOD : Z;
  MAX_LOANS : Z
}.

(** ** Tables *)

(** A row of [books] without its key [isbn]. *)
Record book := Book {
  title : string;
  binding : string;
  authors : string;
  series : option string;
  available : Z;
  location : option string
}.

(** A row of [users] without its key [userid]. *)
Record user := User {
  username : string;
  banned : bool
}.

(** A row of [loans]: columns rdate, bdate, estrdate, returned, userid, isbn. *)
Record loan := Loan {
  rdate : option Z;
  bdate : Z;
  estrdate : Z;
  returned : bool;
  loan_userid : Z;
  loan_isbn : string
}.

(** The connection: the three tables and whether it enforces foreign keys
    ([PRAGMA foreign_keys = 1], executed by [init] only). *)
Record db := Db {
  books : gmap string book;
  users : gmap Z user;
  loans : list loan;
  foreign_keys : bool
}.

Global Instance book_eq_dec : EqDecision book.
Proof. solve_decision. Defined.
Global Instance user_eq_dec : EqDecision user.
Proof. solve_decision. Defined.
Global Instance loan_eq_dec : EqDecision loan.
Proof. solve_decision. Defined.

Definition set_available (f : Z → Z) (b : book) : book :=
  Book (title b) (binding b) (authors b) (series b) (f (available b)) (location b).

Definition set_banned (v : bool) (u : user) : user := User (username u) v.

Definition set_estrdate (t : Z) (l : loan) : loan :=
  Loan (rdate l) (bdate l) t (returned l) (loan_userid l) (loan_isbn l).

(** [SET returned = TRUE, rdate = t] *)
Definition set_returned (t : Z) (l : loan) : loan :=
  Loan (Some t) (bdate l) (estrdate l) true (loan_userid l) (loan_isbn l).

Definition with_books (f : gmap string book → gmap string book) (d : db) : db :=
  Db (f (books d)) (users d) (loans d) (foreign_keys d).

Definition with_users (f : gmap Z user → gmap Z user) (d : db) : db :=
  Db (books d) (f (users d)) (loans d) (foreign_keys d).

Definition with_loans (f : list loan → list loan) (d : db) : db :=
  Db (books d) (users d) (f (loans d)) (foreign_keys d).

(** ** WHERE clauses on [loans] *)

(** [userid = u AND isbn = i AND returned IS FALSE] (borrow, line 247) *)
Definition active_for (u : Z) (i : string) (l : loan) : Prop :=
  loan_userid l = u ∧ loan_isbn l = i ∧ returned l = false.

(** [userid = u AND returned IS FALSE] (borrow line 251, due line 332) *)
Definition active_of (u : Z) (l : loan) : Prop :=
  loan_userid l = u ∧ returned l = false.

(** [isbn IS i AND userid IS u] (renew line 364, return line 464) *)
Definition loan_of (i : string) (u : Z) (l : loan) : Prop :=
  loan_isbn l = i ∧ loan_userid l = u.

(** [isbn IS i] (delete line 443) *)
Definition loan_on (i : string) (l : loan) : Prop := loan_isbn l = i.

Global Instance active_for_dec u i l : Decision (active_for u i l).
Proof. unfold active_for. apply _. Defined.
Global Instance active_of_dec u l : Decision (active_of u l).
Proof. unfold active_of. apply _. Defined.
Global Instance loan_of_dec i u l : Decision (loan_of i u l).
Proof. unfold loan_of. apply _. Defined.
Global Instance loan_on_dec i l : Decision (loan_on i l).
Proof. unfold loan_on. apply _. Defined.

(** [UPDATE loans SET ... WHERE P]: every matching row is rewritten. *)
Definition update_where (P : loan → Prop) `{∀ l, Decision (P l)}
    (f : loan → loan) (ls : list loan) : list loan :=
  (λ l, if decide (P l) then f l else l) <$> ls.

(** ** Time *)

(** One day, in microseconds ([datetime.timedelta(days=1)]). *)
Definition day : Z := 86400000000.

(** [datetime.timedelta(days=n)] *)
Definition timedelta (days : Z) : Z := days * day.

(** [td.days] of a normalised timedelta: the floor of the quotient. *)
Definition days (td : Z) : Z := td / day.

(** [dt.date()], as a day number. *)
Definition date (dt : Z) : Z := dt / day.

(** The microsecond field of a datetime. *)
Definition microsecond (dt : Z) : Z := dt mod 1000000.

(** ** Messages *)

Inductive channel := Here | DirectMessage | AdminDM.

Inductive due_status :=
| Overdue (n : Z)       (* "— ** n day(s) overdue!**", then the renew hint *)
| Remaining (n : Z).    (* "— n day(s) remaining" *)

Inductive message :=
| Welcome (user_id : Z)              (* 'Welcome to the library <@id>! ' *)
| YouAreBanned                       (* "It looks like you're banned from borrowing books! " *)
| AskAdmin                           (* "Please message <@admin> if you think is a mistake." *)
| NewLoanFrom (user : string)        (* "New Loan from " + user *)
| Plain (s : string)                 (* the text s itself *)
| BookIsYours                        (* 'Great! The book is yours. ' *)
| BorrowMessage                      (* BORROW_MESSAGE of the configuration *)
| NotAvailable                       (* "I'm sorry, that book isn't available. " *)
| LoanLimitReached                   (* "I'm sorry, it looks like you've reached your loan limit. " *)
| AlreadyOnLoan                      (* "Sorry, you can't borrow that; it looks like you already have a copy on loan!  " *)
| NoLoans                            (* "It looks like you don't have any books loaned to you at the moment " *)
| HelpHint                           (* "Type `!help search` to find out how to search for books, ..." *)
| DueNotice (isbn : string) (b : book) (return_date : Z) (s : due_status)
| BookRenewed                        (* 'Book renewed.' *)
| UserBanned                         (* 'User banned.' *)
| UserUnbanned                       (* 'User unbanned.' *)
| BookCountModified                  (* 'Book count modified.' *)
| BookDeleted                        (* 'Book deleted.' *)
| BookReturned                       (* 'Book successfully returned. It should now be available again to borrow.' *)
| AuthenticationFailure              (* 'Authentication failure.' *)
| FailedAttemptFrom (user_id : Z).   (* 'Failed authentication attempt from: ' + user *)

Inductive error := IntegrityError | ValueError | TypeError.

(** What a command leaves behind: the database as the connection sees it,
    the messages sent in order, and the exception it ended with, if any. *)
Record outcome := Outcome {
  state : db;
  sent : list (channel * message);
  raised : option error
}.

(** [respond(ctx, messages, dm, admin)]: the channel is the administrator's
    DM when [admin], the author's DM when [dm], the invoking channel
    otherwise. *)
Definition respond (messages : list message) (dm admin : bool)
    : list (channel * message) :=
  let channel := if admin then AdminDM else if dm then DirectMessage else Here in
  (λ m, (channel, m)) <$> messages.

(** The definitions of this section are the commands of the source on
    well-formed inputs: [isbn] and the user name are plain texts, so the
    WHERE clauses that splice them select by equality, the INSERT of line
    240 and of line 258 store them as they are, and no statement fails to
    parse. *)
Section Commands.

Context (cfg : config).

(** [auth_check(ctx)], for the author [user_id] of the message. *)
Definition auth_check (user_id : Z) : bool * list (channel * message) :=
  if decide (user_id = ADMIN_USER cfg) then (true, [])
  else (false, respond [AuthenticationFailure] false false
               ++ respond [FailedAttemptFrom user_id] false true).

(** *** borrow *)

(** [SELECT * FROM books WHERE isbn IS i AND available >= 1], [fetchone()] *)
Definition select_available (i : string) (d : db) : option book :=
  match books d !! i with
  | Some b => if decide (available b >= 1) then Some b else None
  | None => None
  end.

(** The row borrow inserts (line 258): rdate NULL, bdate, estrdate,
    returned FALSE, userid, isbn. *)
Definition new_loan (user_id : Z) (isbn : string) (t_b t_e : Z) : loan :=
  Loan None t_b (t_e + timedelta (LOAN_PERIOD cfg)) false user_id isbn.

(** Lines 246-272: the checks after the user row is known, with the
    messages collected so far.  [t_b] and [t_e] are the two clock readings
    of line 258 and line 259. *)
Definition borrow_checks (user_id : Z) (user : string) (isbn : string)
    (t_b t_e : Z) (messages : list message) (d : db) : outcome :=
  let unique_loan := length (filter (active_for user_id isbn) (loans d)) in
  if decide (unique_loan = 0%nat) then
    let current_loans := length (filter (active_of user_id) (loans d)) in
    if decide (Z.of_nat current_loans < MAX_LOANS cfg) then
      match select_available isbn d with
      | Some _ =>
          let d1 := with_books (alter (λ b, if decide (available b >= 1)
                                            then set_available (λ a, a - 1) b
                                            else b) isbn) d in
          let d2 := with_loans (λ ls, ls ++ [new_loan user_id isbn t_b t_e]) d1 in
          Outcome d2
            (respond [NewLoanFrom user; Plain isbn] false true
             ++ respond (messages ++ [BookIsYours; BorrowMessage]) true false)
            None
      | None =>
          Outcome d (respond (messages ++ [NotAvailable]) true false) None
      end
    else Outcome d (respond (messages ++ [LoanLimitReached]) true false) None
  else Outcome d (respond (messages ++ [AlreadyOnLoan]) true false) None.

(** [borrow(ctx, isbn)] for the author [user_id], whose name is [user]. *)
Definition borrow (user_id : Z) (user : string) (isbn : string)
    (t_b t_e : Z) (d : db) : outcome :=
  match users d !! user_id with
  | None =>
      borrow_checks user_id user isbn t_b t_e [Welcome user_id]
        (with_users (insert user_id (User user false)) d)
  | Some res =>
      if banned res then
        Outcome d (respond [YouAreBanned; AskAdmin] false false) None
      else borrow_checks user_id user isbn t_b t_e [] d
  end.

(** *** renew, ban, unban, add, remove, delete, return *)

Definition renew (caller : Z) (isbn : string) (userid : Z) (days_ : Z)
    (now : Z) (d : db) : outcome :=
  let (ok, refusal) := auth_check caller in
  if ok then
    let new_date := now + timedelta days_ in
    Outcome (with_loans (update_where (loan_of isbn userid) (set_estrdate new_date)) d)
            (respond [BookRenewed] false true) None
  else Outcome d refusal None.

Definition ban (caller : Z) (userid : Z) (d : db) : outcome :=
  let (ok, refusal) := auth_check caller in
  if ok then
    Outcome (with_users (alter (set_banned true) userid) d)
            (respond [UserBanned] false true) None
  else Outcome d refusal None.

Definition unban (caller : Z) (userid : Z) (d : db) : outcome :=
  let (ok, refusal) := auth_check caller in
  if ok then
    Outcome (with_users (alter (set_banned false) userid) d)
            (respond [UserUnbanned] false true) None
  else Outcome d refusal None.

Definition add (caller : Z) (isbn : string) (count : Z) (d : db) : outcome :=
  let (ok, refusal) := auth_check caller in
  if ok then
    Outcome (with_books (alter (set_available (λ a, a + count)) isbn) d)
            (respond [BookCountModified] false true) None
  else Outcome d refusal None.

Definition remove (caller : Z) (isbn : string) (count : Z) (d : db) : outcome :=
  add caller isbn (- Z.abs count) d.

(** [DELETE FROM books WHERE isbn IS i] fails with a foreign key violation
    when the connection enforces foreign keys, the book exists and a row of
    [loans] refers to it; the UPDATE before it stays in the open
    transaction of the connection. *)
Definition delete (caller : Z) (isbn : string) (now : Z) (d : db) : outcome :=
  let (ok, refusal) := auth_check caller in
  if ok then
    let d1 := with_loans (update_where (loan_on isbn) (set_returned now)) d in
    if foreign_keys d && bool_decide (is_Some (books d !! isbn))
       && bool_decide (Exists (loan_on isbn) (loans d))
    then Outcome d1 [] (Some IntegrityError)
    else Outcome (with_books (base.delete isbn) d1)
                 (respond [BookDeleted] false true) None
  else Outcome d refusal None.

Definition return_ (caller : Z) (isbn : string) (userid : Z) (now : Z)
    (d : db) : outcome :=
  let (ok, refusal) := auth_check caller in
  if ok then
    let d1 := with_books (alter (set_available (λ a, a + 1)) isbn) d in
    let d2 := with_loans (update_where (loan_of isbn userid) (set_returned now)) d1 in
    Outcome d2 (respond [BookReturned] false false) None
  else Outcome d refusal None.

End Commands.

(** ** due *)

(** A computation that returns or raises. *)
Inductive result (A : Type) :=
| Ok (a : A)
| Raise (e : error).
Global Arguments Ok {A} a.
Global Arguments Raise {A} e.

Global Instance result_bind : MBind result := λ A B k r,
  match r with
  | Ok a => k a
  | Raise e => Raise e
  end.

(** [datetime.datetime.strptime(estrdate, '%Y-%m-%d %H:%M:%S.%f')] on the
    stored text [str(dt)].  [str] prints the fractional part only when the
    microsecond field is not 0, and the format requires it: the text of a
    whole-second datetime does not match and [strptime] raises ValueError. *)
Definition strptime_f (dt : Z) : result Z :=
  if decide (microsecond dt = 0) then Raise ValueError else Ok dt.

(** The loop of line 340 over the rows [(isbn, estrdate)], from its [n]-th
    iteration on; [clock k] is the clock reading of iteration [k]. *)
Fixpoint due_books (clock : nat → Z) (d : db) (n : nat)
    (res : list (string * Z)) : result (list (option (string * book) * Z * Z)) :=
  match res with
  | [] => Ok []
  | (isbn, estrdate) :: res' =>
      let book := (λ b, (isbn, b)) <$> books d !! isbn in
      date_obj ← strptime_f estrdate;
      let return_date := date date_obj in
      let remaining := days (date_obj - clock n) + 1 in
      books ← due_books clock d (S n) res';
      Ok ((book, return_date, remaining) :: books)
  end.

(** [format_book_records(books, display_due_details=True)]: one notice per
    entry; [book[3]] on a missing book ([None]) raises TypeError. *)
Fixpoint format_book_records (books : list (option (string * book) * Z * Z))
    : result (list message) :=
  match books with
  | [] => Ok []
  | (book, return_date, remaining) :: books' =>
      match book with
      | None => Raise TypeError
      | Some (isbn, b) =>
          let pretty_book :=
            DueNotice isbn b return_date
              (if decide (remaining <= 0) then Overdue (Z.abs remaining)
               else Remaining remaining) in
          pretty_books ← format_book_records books';
          Ok (pretty_book :: pretty_books)
      end
  end.

(** [SELECT isbn, estrdate FROM loans WHERE userid = u AND returned IS FALSE] *)
Definition select_due (user_id : Z) (d : db) : list (string * Z) :=
  (λ l, (loan_isbn l, estrdate l)) <$> filter (active_of user_id) (loans d).

(** [due(ctx)] for the author [user_id]. *)
Definition due (user_id : Z) (clock : nat → Z) (d : db) : outcome :=
  let res := select_due user_id d in
  if decide (length res = 0%nat) then
    Outcome d (respond [NoLoans; HelpHint] false false) None
  else
    match due_books clock d 0 res with
    | Raise e => Outcome d [] (Some e)
    | Ok books =>
        match format_book_records books with
        | Raise e => Outcome d [] (Some e)
        | Ok messages => Outcome d (respond messages true false) None
        end
    end.

(** ** Sequences of commands *)

Inductive command :=
| Borrow (user_id : Z) (user : string) (isbn : string) (t_b t_e : Z)
| Return (caller : Z) (isbn : string) (userid : Z) (now : Z)
| Renew (caller : Z) (isbn : string) (userid : Z) (days_ : Z) (now : Z)
| Add (caller : Z) (isbn : string) (count : Z)
| Remove (caller : Z) (isbn : string) (count : Z)
| Delete (caller : Z) (isbn : string) (now : Z)
| Ban (caller : Z) (userid : Z)
| Unban (caller : Z) (userid : Z).

Definition exec (cfg : config) (c : command) (d : db) : outcome :=
  match c with
  | Borrow user_id user isbn t_b t_e => borrow cfg user_id user isbn t_b t_e d
  | Return caller isbn userid now => return_ cfg caller isbn userid now d
  | Renew caller isbn userid days_ now => renew cfg caller isbn userid days_ now d
  | Add caller isbn count => add cfg caller isbn count d
  | Remove caller isbn count => remove cfg caller isbn count d
  | Delete caller isbn now => delete cfg caller isbn now d
  | Ban caller userid => ban cfg caller userid d
  | Unban caller userid => unban cfg caller userid d
  end.

Definition step (cfg : config) (c : command) (d : db) : db := state (exec cfg c d).

(** The database after each command of a sequence, in order. *)
Fixpoint trace (cfg : config) (cs : list command) (d : db) : list db :=
  match cs with
  | [] => []
  | c :: cs' => step cfg c d :: trace cfg cs' (step cfg c d)
  end.

(** ** Invariants and observations *)

(** [availableCopies] of a book, if the book is in the catalogue. *)
Definition available_of (d : db) (isbn : string) : option Z :=
  available <$> books d !! isbn.

(** Every book has a non-negative number of available copies. *)
Definition available_nonneg (d : db) : Prop :=
  ∀ isbn b, books d !! isbn = Some b → 0 <= available b.

(** At most one active loan per pair of user and book. *)
Definition unique_active (d : db) : Prop :=
  ∀ u i, (length (filter (active_for u i) (loans d)) ≤ 1)%nat.

(** An adjustment that does not take a book below zero copies. *)
Definition adjust_within (c : command) (d : db) : Prop :=
  match c with
  | Add _ isbn count => ∀ b, books d !! isbn = Some b → 0 <= available b + count
  | Remove _ isbn count => ∀ b, books d !! isbn = Some b → Z.abs count <= available b
  | _ => True
  end.

(** Every adjustment of a sequence stays within the copies available when
    it is run. *)
Fixpoint adjusts_within (cfg : config) (cs : list command) (d : db) : Prop :=
  match cs with
  | [] => True
  | c :: cs' => adjust_within c d ∧ adjusts_within cfg cs' (step cfg c d)
  end.

(** ** The gates of borrow *)

(** The user row makes borrow stop at line 245. *)
Definition is_banned (user_id : Z) (d : db) : bool :=
  match users d !! user_id with
  | Some res => banned res
  | None => false
  end.

(** The greeting of a user borrow sees for the first time. *)
Definition welcome (user_id : Z) (d : db) : list message :=
  match users d !! user_id with
  | Some _ => []
  | None => [Welcome user_id]
  end.

(** The database once borrow has inserted the row of a new user. *)
Definition registered (user_id : Z) (user : string) (d : db) : db :=
  match users d !! user_id with
  | Some _ => d
  | None => with_users (insert user_id (User user false)) d
  end.

Inductive gate :=
| GateBanned
| GateDuplicateLoan
| GateLoanLimit
| GateNotAvailable
| GateOpen.

Global Instance gate_eq_dec : EqDecision gate.
Proof. solve_decision. Defined.

(** The gates of a borrow in the order of the specification: banned,
    duplicate loan, loan limit, then the book, where an absent book and a
    book without an available copy stop at the same gate. *)
Definition borrow_gates (cfg : config) (user_id : Z) (isbn : string) (d : db) : gate :=
  if is_banned user_id d then GateBanned
  else if bool_decide (Exists (active_for user_id isbn) (loans d)) then GateDuplicateLoan
  else if bool_decide (MAX_LOANS cfg <= Z.of_nat (length (filter (active_of user_id) (loans d))))
  then GateLoanLimit
  else match books d !! isbn with
       | None => GateNotAvailable
       | Some b => if bool_decide (available b < 1) then GateNotAvailable else GateOpen
       end.

(** The messages of a borrow that stopped at gate [g], or passed them all. *)
Definition borrow_reply (user_id : Z) (user : string) (isbn : string) (d : db)
    (g : gate) : list (channel * message) :=
  match g with
  | GateBanned => [(Here, YouAreBanned); (Here, AskAdmin)]
  | GateDuplicateLoan => respond (welcome user_id d ++ [AlreadyOnLoan]) true false
  | GateLoanLimit => respond (welcome user_id d ++ [LoanLimitReached]) true false
  | GateNotAvailable => respond (welcome user_id d ++ [NotAvailable]) true false
  | GateOpen =>
      [(AdminDM, NewLoanFrom user); (AdminDM, Plain isbn)]
      ++ respond (welcome user_id d ++ [BookIsYours; BorrowMessage]) true false
  end.

(** ** What a command does to a loan row *)

(** The row that a row [l] of the loan table becomes when a well-formed
    command [c] runs: renew rewrites estrdate, return and delete rewrite
    returned and rdate, each on the rows its WHERE clause selects and for
    the administrator only; no other command touches an existing row. *)
Definition rewritten (cfg : config) (c : command) (l : loan) : loan :=
  match c with
  | Renew caller isbn userid days_ now =>
      if decide (caller = ADMIN_USER cfg ∧ loan_of isbn userid l)
      then set_estrdate (now + timedelta days_) l else l
  | Return caller isbn userid now =>
      if decide (caller = ADMIN_USER cfg ∧ loan_of isbn userid l)
      then set_returned now l else l
  | Delete caller isbn now =>
      if decide (caller = ADMIN_USER cfg ∧ loan_on isbn l)
      then set_returned now l else l
  | _ => l
  end.

(** ** The days remaining on a loan *)

(** The specification's rule: the floor of the days from [now] to the due
    date, plus one. *)
Definition days_remaining (due_at now : Z) : Z := (due_at - now) / day + 1.

(** The notice for a loan of book [b] due at [estrdate], read at [now]:
    overdue when no day remains. *)
Definition due_notice (isbn : string) (b : book) (estrdate now : Z) : message :=
  DueNotice isbn b (date estrdate)
    (if decide (days_remaining estrdate now <= 0)
     then Overdue (Z.abs (days_remaining estrdate now))
     else Remaining (days_remaining estrdate now)).

(** ** Concrete inputs *)

Definition cfg0 : config := Config 1 14 2.

Definition dune_isbn : string := "9780441013593".

Definition dune (copies : Z) : book :=
  Book "Dune" "Paperback" "Frank Herbert" None copies None.

(** A catalogue with one book, no users and no loans. *)
Definition library (copies : Z) : db :=
  Db {[ dune_isbn := dune copies ]} ∅ [] false.

(** Nothing in the catalogue, no users and no loans. *)
Definition empty_library : db := Db ∅ ∅ [] false.

(** 2021-03-01 12:00:00.000250, counted from 1970-01-01 00:00:00. *)
Definition noon : Z := 1614600000000250.

(** 2021-03-01 12:00:00 to the microsecond. *)
Definition noon_sharp : Z := 1614600000000000.

(** The same tables on a connection that enforces foreign keys. *)
Definition enforcing (d : db) : db := Db (books d) (users d) (loans d) true.

(** One copy of the book, one user, and one loan of that user returned a
    day after it was borrowed. *)
Definition returned_loan : loan :=
  Loan (Some (noon + day)) noon (noon + timedelta 14) true 42 dune_isbn.

Definition after_return : db :=
  Db {[ dune_isbn := dune 1 ]} {[ 42 := User "ann" false ]} [returned_loan] false.

(** ** The loans listing *)

(** [loans(ctx, scope)] at the clock reading [now]: the rows it sends to the
    caller's DM, and the messages of a refused caller.  The rows are
    selected by the four [if scope == ...] of lines 176-184; a scope that
    is none of them selects nothing.  [estrdate < str(now)] compares the
    stored texts; texts of the form [str(datetime)] are ordered as the
    datetimes they denote. *)
Definition loans_ (cfg : config) (caller : Z) (scope : string) (now : Z) (d : db)
    : list loan * list (channel * message) :=
  let (ok, refusal) := auth_check cfg caller in
  if ok then
    let res := [] in
    let res := if decide (scope = "all") then loans d else res in
    let res := if decide (scope = "returned")
               then filter (λ l, returned l = true) (loans d) else res in
    let res := if decide (scope = "out")
               then filter (λ l, returned l = false) (loans d) else res in
    let res := if decide (scope = "overdue")
               then filter (λ l, estrdate l < now ∧ returned l = false) (loans d)
               else res in
    (res, [])
  else ([], refusal).

(** ** Sequences, callers and counts *)

(** The database after a whole sequence of commands. *)
Definition run (cfg : config) (cs : list command) (d : db) : db :=
  foldl (λ d c, step cfg c d) d cs.

(** The author of a command that starts with [auth_check]. *)
Definition privileged_caller (c : command) : option Z :=
  match c with
  | Borrow _ _ _ _ _ => None
  | Return caller _ _ _ | Renew caller _ _ _ _ | Add caller _ _
  | Remove caller _ _ | Delete caller _ _ | Ban caller _ | Unban caller _ =>
      Some caller
  end.

(** The rows a command appends to the loan table: the new loan of a
    borrow that passes every gate, nothing otherwise. *)
Definition appended (cfg : config) (c : command) (d : db) : list loan :=
  match c with
  | Borrow user_id _ isbn t_b t_e =>
      if decide (borrow_gates cfg user_id isbn d = GateOpen)
      then [new_loan cfg user_id isbn t_b t_e] else []
  | _ => []
  end.

(** No user holds more active loans than MAX_LOANS. *)
Definition within_limit (cfg : config) (d : db) : Prop :=
  ∀ u, Z.of_nat (length (filter (active_of u) (loans d))) <= MAX_LOANS cfg.

(** Every active loan is a loan of a book of the catalogue. *)
Definition loans_have_books (d : db) : Prop :=
  ∀ l, l ∈ loans d → returned l = false → is_Some (books d !! loan_isbn l).

(** [isbn IS i AND returned IS FALSE] *)
Definition active_on (i : string) (l : loan) : Prop :=
  loan_isbn l = i ∧ returned l = false.

Global Instance active_on_dec i l : Decision (active_on i l).
Proof. unfold active_on. apply _. Defined.

(** The copies of a book that are out on loan. *)
Definition on_loan (d : db) (isbn : string) : Z :=
  Z.of_nat (length (filter (active_on isbn) (loans d))).

(** The copies of a book the library owns: on the shelf or on loan. *)
Definition stock (d : db) (isbn : string) : option Z :=
  (λ b, available b + on_loan d isbn) <$> books d !! isbn.

(** The commands that move copies between shelf and borrowers without
    changing how many there are: every borrow, renew, ban and unban, a
    return for a pair that has an active loan, and any command of a caller
    that is not the administrator. *)
Definition conserving (cfg : config) (c : command) (d : db) : Prop :=
  match c with
  | Borrow _ _ _ _ _ | Renew _ _ _ _ _ | Ban _ _ | Unban _ _ => True
  | Return caller isbn userid _ =>
      caller ≠ ADMIN_USER cfg ∨ Exists (active_for userid isbn) (loans d)
  | Add caller _ _ | Remove caller _ _ | Delete caller _ _ =>
      caller ≠ ADMIN_USER cfg
  end.

(** ** The inputs the commands are modelled on *)

(** A text without an apostrophe and without a NUL character.  Spliced
    between the two apostrophes of an SQL statement it is the string
    literal of that text, so the statement is the one the source means and
    [isbn IS '...'] selects by equality with the text.  A text with an
    apostrophe changes what SQLite parses (an unterminated literal, a
    comment, further conditions); the commands are not modelled on it. *)
Fixpoint plainb (s : string) : bool :=
  match s with
  | EmptyString => true
  | String a s' =>
      negb (Ascii.eqb a "'"%char) && negb (Ascii.eqb a "000"%char) && plainb s'
  end.

Definition plain (s : string) : Prop := plainb s = true.

(** The integers an INTEGER column stores and SQLite adds exactly; a text
    or a sum beyond them becomes a floating-point REAL, which is not
    modelled. *)
Definition int64 (z : Z) : Prop :=
  -9223372036854775808 <= z <= 9223372036854775807.

(** [datetime.min] to [datetime.max], 0001-01-01 00:00:00 to 9999-12-31
    23:59:59.999999, in microseconds from 1970-01-01; adding a timedelta
    to a datetime raises OverflowError when the sum is outside, which is
    not modelled. *)
Definition in_datetime (t : Z) : Prop :=
  -62135596800000000 <= t <= 253402300799999999.

(** A property of the row of the book [isbn], if the catalogue has one. *)
Definition for_book (d : db) (isbn : string) (P : book → Prop) : Prop :=
  match books d !! isbn with
  | Some b => P b
  | None => True
  end.

(** The commands, in a database, on which the definitions above are the
    source: the spliced texts are plain, the integers spliced or computed
    are 64-bit, and the dates computed are datetimes. *)
Definition well_formed (cfg : config) (c : command) (d : db) : Prop :=
  match c with
  | Borrow user_id user isbn t_b t_e =>
      plain user ∧ plain isbn ∧ int64 user_id ∧
      in_datetime t_b ∧ in_datetime t_e ∧
      in_datetime (t_e + LOAN_PERIOD cfg * 86400000000) ∧
      for_book d isbn (λ b, int64 (available b))
  | Return _ isbn userid now =>
      plain isbn ∧ int64 userid ∧ in_datetime now ∧
      for_book d isbn (λ b, int64 (available b + 1))
  | Renew _ isbn userid days_ now =>
      plain isbn ∧ int64 userid ∧ in_datetime now ∧
      in_datetime (now + days_ * 86400000000)
  | Add _ isbn count =>
      plain isbn ∧ int64 count ∧
      for_book d isbn (λ b, int64 (available b + count))
  | Remove _ isbn count =>
      plain isbn ∧ int64 (- Z.abs count) ∧
      for_book d isbn (λ b, int64 (available b - Z.abs count))
  | Delete _ isbn now => plain isbn ∧ in_datetime now
  | Ban _ userid | Unban _ userid => int64 userid
  end.

(** Every command of a sequence is well formed in the database it runs in. *)
Fixpoint well_formed_run (cfg : config) (cs : list command) (d : db) : Prop :=
  match cs with
  | [] => True
  | c :: cs' => well_formed cfg c d ∧ well_formed_run cfg cs' (step cfg c d)
  end.

(** * Properties *)

(** ** Authorisation *)

Lemma auth_check_admin cfg : auth_check cfg (ADMIN_USER cfg) = (true, []).
Proof. unfold auth_check. by rewrite decide_True. Qed.

Lemma auth_check_other cfg caller :
  caller ≠ ADMIN_USER cfg →
  auth_check cfg caller =
    (false, [(Here, AuthenticationFailure); (AdminDM, FailedAttemptFrom caller)]).
Proof. intros Hne. unfold auth_check. by rewrite decide_False. Qed.

(** Case analysis on the caller of a privileged command. *)
Ltac by_caller cfg caller :=
  destruct (decide (caller = ADMIN_USER cfg)) as [->|?];
  [rewrite ?auth_check_admin | rewrite ?auth_check_other by done];
  simpl.

(** ** The catalogue under each command *)

Lemma available_of_alter (f : Z → Z) isbn d i :
  available_of (with_books (alter (set_available f) isbn) d) i =
  if decide (i = isbn) then f <$> available_of d i else available_of d i.
Proof.
  unfold available_of, with_books. simpl. rewrite lookup_alter.
  destruct (decide (isbn = i)) as [->|Hne].
  - rewrite decide_True by done. by destruct (books d !! i).
  - by rewrite decide_False by done.
Qed.

Lemma add_admin cfg isbn count d :
  add cfg (ADMIN_USER cfg) isbn count d =
  Outcome (with_books (alter (set_available (λ a, a + count)) isbn) d)
          [(AdminDM, BookCountModified)] None.
Proof. unfold add. by rewrite auth_check_admin. Qed.


Lemma available_nonneg_alter (f : book → book) isbn d d' :
  books d' = alter f isbn (books d) →
  available_nonneg d →
  (∀ b, books d !! isbn = Some b → 0 <= available (f b)) →
  available_nonneg d'.
Proof.
  intros Hbooks Hd Hf i b. rewrite Hbooks, lookup_alter_Some.
  intros [[-> (x & Hx & ->)]|[_ Hb]]; eauto.
Qed.

Lemma available_nonneg_delete isbn d d' :
  books d' = base.delete isbn (books d) →
  available_nonneg d → available_nonneg d'.
Proof.
  intros Hbooks Hd i b. rewrite Hbooks, lookup_delete_Some.
  intros [_ Hb]. eauto.
Qed.

Lemma available_nonneg_books d d' :
  books d' = books d → available_nonneg d → available_nonneg d'.
Proof. unfold available_nonneg. intros ->. done. Qed.

Lemma borrow_checks_available_nonneg cfg user_id user isbn t_b t_e messages d :
  available_nonneg d →
  available_nonneg (state (borrow_checks cfg user_id user isbn t_b t_e messages d)).
Proof.
  intros Hd. unfold borrow_checks.
  repeat case_decide; try done.
  destruct (select_available isbn d) as [row|]; [|done]. simpl.
  eapply available_nonneg_alter; [reflexivity|done|].
  intros b Hb. cbv beta. case_decide; simpl; [lia|]. eauto.
Qed.

Lemma step_available_nonneg cfg c d :
  available_nonneg d → adjust_within c d → available_nonneg (step cfg c d).
Proof.
  intros Hd Hc. unfold step. destruct c as
    [user_id user isbn t_b t_e|caller isbn userid now|caller isbn userid days_ now
    |caller isbn count|caller isbn count|caller isbn now|caller userid|caller userid];
    simpl.
  - unfold borrow. destruct (users d !! user_id) as [res|].
    + destruct (banned res); [done|]. by apply borrow_checks_available_nonneg.
    + apply borrow_checks_available_nonneg.
      by apply (available_nonneg_books d).
  - unfold return_. by_caller cfg caller; [|done].
    eapply available_nonneg_alter; [reflexivity|done|].
    intros b Hb. simpl. specialize (Hd _ _ Hb). lia.
  - unfold renew. by_caller cfg caller; [|done].
    by apply (available_nonneg_books d).
  - unfold add. by_caller cfg caller; [|done].
    eapply available_nonneg_alter; [reflexivity|done|].
    intros b Hb. simpl. by apply Hc.
  - unfold remove, add. by_caller cfg caller; [|done].
    eapply available_nonneg_alter; [reflexivity|done|].
    intros b Hb. simpl. specialize (Hc _ Hb). lia.
  - unfold delete. by_caller cfg caller; [|done].
    destruct (_ && _); simpl.
    + by apply (available_nonneg_books d).
    + by eapply available_nonneg_delete.
  - unfold ban. by_caller cfg caller; [|done].
    by apply (available_nonneg_books d).
  - unfold unban. by_caller cfg caller; [|done].
    by apply (available_nonneg_books d).
Qed.

Lemma library_available_nonneg copies : 0 <= copies → available_nonneg (library copies).
Proof.
  intros Hc i b. unfold library. simpl.
  rewrite lookup_singleton_Some. by intros [_ <-].
Qed.

(** C1, as amended.  Starting from a catalogue without negative
    availability, after every command of any sequence of well-formed
    borrow, return, add and remove commands (and of renew, delete, ban and
    unban) every book has [available >= 0], provided no add or remove
    takes a book below zero copies at the moment it runs. *)
Theorem availability_nonneg_within_adjustments cfg cs d :
  available_nonneg d → adjusts_within cfg cs d → well_formed_run cfg cs d →
  Forall available_nonneg (trace cfg cs d).
Proof.
  revert d. induction cs as [|c cs IH]; intros d Hd Hcs Hwf; simpl; [constructor|].
  destruct Hcs as [Hc Hcs]. destruct Hwf as [_ Hwf].
  assert (available_nonneg (step cfg c d)) by by apply step_available_nonneg.
  constructor; [done|]. by apply IH.
Qed.

Lemma availability_nonneg_within_adjustments_witness :
  Forall available_nonneg
    (trace cfg0 [Borrow 42 "ann" dune_isbn noon noon;
                 Remove 1 dune_isbn (-1);
                 Add 1 dune_isbn (-1);
                 Return 1 dune_isbn 42 (noon + day);
                 Add 1 dune_isbn 2]
           (library 3)).
Proof.
  apply availability_nonneg_within_adjustments.
  - apply library_available_nonneg. lia.
  - vm_compute. repeat split; intros b [= <-]; done.
  - by vm_compute.
Defined.

(** C1, as stated, fails: removing five copies of a book that has one
    leaves it with -4 available copies. *)
Lemma remove_drives_availability_negative :
  available_nonneg (library 1) ∧
  available_of (step cfg0 (Remove 1 dune_isbn 5) (library 1)) dune_isbn = Some (-4) ∧
  ¬ Forall available_nonneg (trace cfg0 [Remove 1 dune_isbn 5] (library 1)).
Proof.
  split; [apply library_available_nonneg; lia|].
  split; [by vm_compute|].
  intros H. apply Forall_cons in H as [H _].
  specialize (H dune_isbn (dune (-4))). 
  assert (Hl : books (step cfg0 (Remove 1 dune_isbn 5) (library 1)) !! dune_isbn
               = Some (dune (-4))) by by vm_compute.
  specialize (H Hl). simpl in H. lia.
Qed.

(** ** add and remove *)

Lemma alter_present {A} (f : A → A) (m : gmap string A) i x :
  m !! i = Some x → alter f i m = <[i := f x]> m.
Proof.
  intros Hx. apply map_eq. intros j.
  rewrite lookup_alter, lookup_insert.
  case_decide as Hij; [|done]. by rewrite Hx.
Qed.

Lemma remove_admin cfg isbn count d :
  remove cfg (ADMIN_USER cfg) isbn count d =
  Outcome (with_books (alter (set_available (λ a, a - Z.abs count)) isbn) d)
          [(AdminDM, BookCountModified)] None.
Proof.
  unfold remove. by rewrite add_admin.
Qed.

(** C6, as amended.  For the administrator and a well-formed command
    (plain isbn, count and result 64-bit integers), add changes the
    available copies of an existing book by exactly [count] and remove by
    exactly [- |count|], of either sign, and touches nothing else in the
    catalogue; nothing is clamped, so removing more than is available
    leaves a negative count. *)
Theorem adjust_copies_unclamped cfg isbn count d b :
  well_formed cfg (Add (ADMIN_USER cfg) isbn count) d →
  well_formed cfg (Remove (ADMIN_USER cfg) isbn count) d →
  books d !! isbn = Some b →
  books (state (add cfg (ADMIN_USER cfg) isbn count d))
    = <[isbn := set_available (λ a, a + count) b]> (books d) ∧
  books (state (remove cfg (ADMIN_USER cfg) isbn count d))
    = <[isbn := set_available (λ a, a - Z.abs count) b]> (books d) ∧
  available_of (state (remove cfg (ADMIN_USER cfg) isbn count d)) isbn
    = Some (available b - Z.abs count) ∧
  (available b < Z.abs count →
   ∃ a, available_of (state (remove cfg (ADMIN_USER cfg) isbn count d)) isbn = Some a
        ∧ a < 0).
Proof.
  intros _ _ Hb. rewrite add_admin, remove_admin. simpl.
  assert (Hav : available_of
            (with_books (alter (set_available (λ a, a - Z.abs count)) isbn) d) isbn
          = Some (available b - Z.abs count)).
  { rewrite available_of_alter, decide_True by done.
    unfold available_of. by rewrite Hb. }
  repeat split.
  - by apply alter_present.
  - by apply alter_present.
  - done.
  - intros Hlt. eexists. split; [done|lia].
Qed.

Lemma adjust_copies_unclamped_witness :
  books (library 2) !! dune_isbn = Some (dune 2) ∧
  ∃ a, available_of (state (remove cfg0 1 dune_isbn 5 (library 2))) dune_isbn = Some a
       ∧ a < 0.
Proof.
  assert (Hb : books (library 2) !! dune_isbn = Some (dune 2)) by by vm_compute.
  split; [exact Hb|].
  assert (Hadd : well_formed cfg0 (Add 1 dune_isbn 5) (library 2)) by by vm_compute.
  assert (Hrem : well_formed cfg0 (Remove 1 dune_isbn 5) (library 2)) by by vm_compute.
  destruct (adjust_copies_unclamped cfg0 dune_isbn 5 (library 2) (dune 2) Hadd Hrem Hb)
    as (_ & _ & _ & Hneg).
  apply Hneg. by vm_compute.
Defined.

(** C6, as stated, fails: removing five copies from a book with one
    available copy gives -4, not 0. *)
Lemma remove_is_not_clamped :
  available_of (library 1) dune_isbn = Some 1 ∧
  available_of (state (remove cfg0 1 dune_isbn 5 (library 1))) dune_isbn = Some (-4) ∧
  available_of (state (remove cfg0 1 dune_isbn 5 (library 1))) dune_isbn ≠ Some 0.
Proof. by vm_compute. Qed.



(** ** The loan table under each command *)

Lemma length_update_where (P : loan → Prop) `{∀ l, Decision (P l)} f ls :
  length (update_where P f ls) = length ls.
Proof. unfold update_where. apply length_fmap. Qed.

Lemma lookup_update_where (P : loan → Prop) `{∀ l, Decision (P l)} f ls (k : nat) :
  update_where P f ls !! k = (λ l, if decide (P l) then f l else l) <$> ls !! k.
Proof. unfold update_where. apply list_lookup_fmap. Qed.

(** An update that makes no row newly satisfy [Q] does not add rows to the
    selection of [Q]. *)
Lemma filter_update_where_le (Q P : loan → Prop)
    `{∀ l, Decision (Q l)} `{∀ l, Decision (P l)} f ls :
  (∀ l, Q (f l) → Q l) →
  (length (filter Q (update_where P f ls)) ≤ length (filter Q ls))%nat.
Proof.
  intros Hf. unfold update_where.
  induction ls as [|l ls IH]; [done|].
  rewrite fmap_cons, !filter_cons.
  destruct (decide (P l)); repeat case_decide; simpl; try lia.
  exfalso. eauto.
Qed.

Lemma active_for_set_estrdate u i t l :
  active_for u i (set_estrdate t l) → active_for u i l.
Proof. done. Qed.

Lemma active_for_set_returned u i t l :
  active_for u i (set_returned t l) → active_for u i l.
Proof. intros (_ & _ & ?). done. Qed.

Lemma unique_active_loans d d' :
  loans d' = loans d → unique_active d → unique_active d'.
Proof. unfold unique_active. intros ->. done. Qed.

Lemma unique_active_update (P : loan → Prop) `{∀ l, Decision (P l)} f d d' :
  loans d' = update_where P f (loans d) →
  (∀ u i l, active_for u i (f l) → active_for u i l) →
  unique_active d → unique_active d'.
Proof.
  intros Hl Hf Hd u i. rewrite Hl.
  etrans; [apply filter_update_where_le; by eauto|]. apply Hd.
Qed.

(** The loan table after the checks of borrow: unchanged, or one new row
    for a pair that had no active loan. *)
Lemma borrow_checks_loans cfg user_id user isbn t_b t_e messages d :
  let d' := state (borrow_checks cfg user_id user isbn t_b t_e messages d) in
  loans d' = loans d ∨
  (filter (active_for user_id isbn) (loans d) = [] ∧
   loans d' = loans d ++ [new_loan cfg user_id isbn t_b t_e]).
Proof.
  unfold borrow_checks. simpl.
  case_decide as Huniq; [|by left].
  case_decide; [|by left].
  destruct (select_available isbn d); [|by left].
  right. split; [|done]. by apply length_zero_iff_nil.
Qed.

Lemma unique_active_borrow_checks cfg user_id user isbn t_b t_e messages d :
  unique_active d →
  unique_active (state (borrow_checks cfg user_id user isbn t_b t_e messages d)).
Proof.
  intros Hd.
  destruct (borrow_checks_loans cfg user_id user isbn t_b t_e messages d)
    as [Hsame|[Hnone Hnew]]; [by eapply unique_active_loans|].
  intros u i. rewrite Hnew, filter_app, length_app, filter_cons, filter_nil.
  destruct (decide (active_for u i (new_loan cfg user_id isbn t_b t_e)))
    as [(Hu & Hi & _)|_]; simpl in *.
  - subst u i. rewrite Hnone. simpl. lia.
  - specialize (Hd u i). lia.
Qed.

Lemma step_unique_active cfg c d :
  unique_active d → unique_active (step cfg c d).
Proof.
  intros Hd. unfold step. destruct c as
    [user_id user isbn t_b t_e|caller isbn userid now|caller isbn userid days_ now
    |caller isbn count|caller isbn count|caller isbn now|caller userid|caller userid];
    simpl.
  - unfold borrow. destruct (users d !! user_id) as [res|].
    + destruct (banned res); [done|]. by apply unique_active_borrow_checks.
    + apply unique_active_borrow_checks. by apply (unique_active_loans d).
  - unfold return_. by_caller cfg caller; [|done].
    eapply unique_active_update; [reflexivity| |done].
    intros u i l. apply active_for_set_returned.
  - unfold renew. by_caller cfg caller; [|done].
    eapply unique_active_update; [reflexivity| |done].
    intros u i l. apply active_for_set_estrdate.
  - unfold add. by_caller cfg caller; [|done]. by apply (unique_active_loans d).
  - unfold remove, add. by_caller cfg caller; [|done].
    by apply (unique_active_loans d).
  - unfold delete. by_caller cfg caller; [|done].
    destruct (_ && _); simpl;
      (eapply (unique_active_update (loan_on isbn)); [reflexivity| |done]);
      intros u i l; apply active_for_set_returned.
  - unfold ban. by_caller cfg caller; [|done]. by apply (unique_active_loans d).
  - unfold unban. by_caller cfg caller; [|done]. by apply (unique_active_loans d).
Qed.


(** ** borrow, gate by gate *)

Lemma filter_length_zero {A} (P : A → Prop) `{∀ x, Decision (P x)} (l : list A) :
  length (filter P l) = 0%nat ↔ ¬ Exists P l.
Proof.
  induction l as [|x l IH]; simpl.
  - split; [|done]. intros _ HE. by apply Exists_nil in HE.
  - rewrite filter_cons, Exists_cons. case_decide; simpl.
    + split; [done|]. intros HE. exfalso. apply HE. by left.
    + rewrite IH. split; [intros Hl [?|?]; done|intros Hl ?; apply Hl; by right].
Qed.

Lemma borrow_checks_cases cfg user_id user isbn t_b t_e messages d :
  borrow_checks cfg user_id user isbn t_b t_e messages d =
  if bool_decide (Exists (active_for user_id isbn) (loans d)) then
    Outcome d (respond (messages ++ [AlreadyOnLoan]) true false) None
  else if bool_decide (MAX_LOANS cfg <=
            Z.of_nat (length (filter (active_of user_id) (loans d)))) then
    Outcome d (respond (messages ++ [LoanLimitReached]) true false) None
  else match books d !! isbn with
       | Some b =>
           if bool_decide (available b < 1) then
             Outcome d (respond (messages ++ [NotAvailable]) true false) None
           else
             Outcome
               (with_loans (λ ls, ls ++ [new_loan cfg user_id isbn t_b t_e])
                  (with_books (alter (set_available (λ a, a - 1)) isbn) d))
               ([(AdminDM, NewLoanFrom user); (AdminDM, Plain isbn)]
                ++ respond (messages ++ [BookIsYours; BorrowMessage]) true false)
               None
       | None => Outcome d (respond (messages ++ [NotAvailable]) true false) None
       end.
Proof.
  unfold borrow_checks, select_available.
  destruct (decide (length (filter (active_for user_id isbn) (loans d)) = 0%nat))
    as [Hz|Hnz].
  - rewrite bool_decide_eq_false_2 by (by apply (filter_length_zero (active_for user_id isbn))).
    case_decide as Hlim.
    + rewrite bool_decide_eq_false_2 by lia.
      destruct (books d !! isbn) as [b|] eqn:Hb; [|done].
      case_decide as Hav.
      * rewrite bool_decide_eq_false_2 by lia.
        assert (Halter :
          alter (λ b0, if decide (available b0 >= 1)
                       then set_available (λ a, a - 1) b0 else b0) isbn (books d)
          = alter (set_available (λ a, a - 1)) isbn (books d)).
        { apply alter_ext. intros x Hx. rewrite Hb in Hx. injection Hx as <-.
          by rewrite decide_True. }
        unfold with_loans, with_books. simpl. by rewrite Halter.
      * by rewrite bool_decide_eq_true_2 by lia.
    + by rewrite bool_decide_eq_true_2 by lia.
  - rewrite bool_decide_eq_true_2; [done|].
    destruct (decide (Exists (active_for user_id isbn) (loans d))) as [|Hno];
      [done|].
    by apply (filter_length_zero (active_for user_id isbn)) in Hno.
Qed.

(** What borrow sends, raises and leaves behind, by the gate it stops at. *)
Lemma borrow_by_gate cfg user_id user isbn t_b t_e d :
  let g := borrow_gates cfg user_id isbn d in
  let o := borrow cfg user_id user isbn t_b t_e d in
  sent o = borrow_reply user_id user isbn d g ∧
  raised o = None ∧
  state o =
    match g with
    | GateBanned => d
    | GateOpen =>
        with_loans (λ ls, ls ++ [new_loan cfg user_id isbn t_b t_e])
          (with_books (alter (set_available (λ a, a - 1)) isbn)
             (registered user_id user d))
    | _ => registered user_id user d
    end.
Proof.
  unfold borrow, borrow_gates, borrow_reply, is_banned, welcome, registered.
  destruct (users d !! user_id) as [res|]; [destruct (banned res); [done|]|];
    rewrite borrow_checks_cases; simpl;
    repeat (case_bool_decide; [done|]);
    (destruct (books d !! isbn) as [b|]; [|done]);
    by case_bool_decide.
Qed.

Lemma borrow_gates_open cfg user_id isbn d :
  borrow_gates cfg user_id isbn d = GateOpen →
  ∃ b, books d !! isbn = Some b ∧ 1 <= available b ∧
       is_banned user_id d = false ∧
       ¬ Exists (active_for user_id isbn) (loans d) ∧
       Z.of_nat (length (filter (active_of user_id) (loans d))) < MAX_LOANS cfg.
Proof.
  unfold borrow_gates.
  destruct (is_banned user_id d); [done|].
  case_bool_decide; [done|]. case_bool_decide; [done|].
  destruct (books d !! isbn) as [b|]; [|done].
  case_bool_decide; [done|]. intros _. exists b. repeat split; [lia|done|lia].
Qed.

Lemma books_registered user_id user d :
  books (registered user_id user d) = books d.
Proof. unfold registered. by destruct (users d !! user_id). Qed.

Lemma loans_registered user_id user d :
  loans (registered user_id user d) = loans d.
Proof. unfold registered. by destruct (users d !! user_id). Qed.

Lemma book_is_yours_only_when_open user_id user isbn d g :
  (DirectMessage, BookIsYours) ∈ borrow_reply user_id user isbn d g → g = GateOpen.
Proof.
  unfold borrow_reply, welcome.
  destruct g, (users d !! user_id); simpl; try done;
    intros Hin; repeat (apply elem_of_cons in Hin as [[=]|Hin]);
    by apply elem_of_nil in Hin.
Qed.

(** C4, as amended.  A well-formed borrow (plain user name and isbn, due
    date a datetime) checks its gates in the order banned, duplicate loan,
    loan limit, book, and stops at the first that fails with that gate's
    message; at the last gate an absent isbn and a book with
    [available < 1] get the same "not available" message.  A banned user
    leaves the database untouched; every other refusal leaves the catalogue
    and the loans untouched and keeps the row of a user seen for the first
    time. *)
Theorem borrow_gate_order cfg user_id user isbn t_b t_e d :
  well_formed cfg (Borrow user_id user isbn t_b t_e) d →
  let g := borrow_gates cfg user_id isbn d in
  let o := borrow cfg user_id user isbn t_b t_e d in
  sent o = borrow_reply user_id user isbn d g ∧
  raised o = None ∧
  state o =
    match g with
    | GateBanned => d
    | GateOpen =>
        with_loans (λ ls, ls ++ [new_loan cfg user_id isbn t_b t_e])
          (with_books (alter (set_available (λ a, a - 1)) isbn)
             (registered user_id user d))
    | _ => registered user_id user d
    end.
Proof. intros _. apply borrow_by_gate. Qed.

Lemma borrow_gate_order_witness :
  sent (borrow cfg0 42 "ann" dune_isbn noon noon (library 0))
    = [(DirectMessage, Welcome 42); (DirectMessage, NotAvailable)] ∧
  sent (borrow cfg0 42 "ann" dune_isbn noon noon (library 1))
    = [(AdminDM, NewLoanFrom "ann"); (AdminDM, Plain dune_isbn);
       (DirectMessage, Welcome 42); (DirectMessage, BookIsYours);
       (DirectMessage, BorrowMessage)].
Proof.
  assert (H0 : well_formed cfg0 (Borrow 42 "ann" dune_isbn noon noon) (library 0))
    by by vm_compute.
  assert (H1 : well_formed cfg0 (Borrow 42 "ann" dune_isbn noon noon) (library 1))
    by by vm_compute.
  destruct (borrow_gate_order cfg0 42 "ann" dune_isbn noon noon (library 0) H0)
    as (Hs0 & _).
  destruct (borrow_gate_order cfg0 42 "ann" dune_isbn noon noon (library 1) H1)
    as (Hs1 & _).
  split; [etrans; [exact Hs0|]|etrans; [exact Hs1|]]; by vm_compute.
Defined.

(** C4, as stated, fails: a borrow of an isbn that is not in the catalogue
    and a borrow of a book with no available copy are refused with the same
    messages. *)
Lemma borrow_absent_book_same_as_unavailable :
  books empty_library !! dune_isbn = None ∧
  available_of (library 0) dune_isbn = Some 0 ∧
  sent (borrow cfg0 42 "ann" dune_isbn noon noon empty_library)
    = [(DirectMessage, Welcome 42); (DirectMessage, NotAvailable)] ∧
  sent (borrow cfg0 42 "ann" dune_isbn noon noon (library 0))
    = [(DirectMessage, Welcome 42); (DirectMessage, NotAvailable)].
Proof. by vm_compute. Qed.



(** ** One active loan per user and book *)

Lemma unique_active_no_loans d : loans d = [] → unique_active d.
Proof. intros Hl u i. rewrite Hl. simpl. lia. Qed.




(** ** return *)

Lemma return_admin cfg isbn userid now d :
  return_ cfg (ADMIN_USER cfg) isbn userid now d =
  Outcome (with_loans (update_where (loan_of isbn userid) (set_returned now))
             (with_books (alter (set_available (λ a, a + 1)) isbn) d))
          [(Here, BookReturned)] None.
Proof. unfold return_. by rewrite auth_check_admin. Qed.

Lemma filter_active_for_closed isbn userid now ls :
  filter (active_for userid isbn)
         (update_where (loan_of isbn userid) (set_returned now) ls) = [].
Proof.
  unfold update_where. induction ls as [|l ls IH]; [done|].
  rewrite fmap_cons, filter_cons. rewrite IH.
  case_decide as Hact; [|done]. exfalso.
  destruct (decide (loan_of isbn userid l)) as [|Hno].
  - by destruct Hact as (_ & _ & ?).
  - destruct Hact as (? & ? & _). by apply Hno.
Qed.

(** C3, as amended.  A well-formed return (plain isbn, the incremented
    count a 64-bit integer) by the administrator never refuses: whether or
    not the pair has an active loan it answers that the book was returned,
    raises the available copies of the book [isbn] by 1 (when the book is
    in the catalogue) and rewrites every loan row of the pair, also one
    that was already returned, to returned with rdate [now]; afterwards the
    pair has no active loan.  For any other caller the database is
    unchanged. *)
Theorem return_is_unconditional cfg caller isbn userid now d :
  well_formed cfg (Return caller isbn userid now) d →
  let o := return_ cfg caller isbn userid now d in
  raised o = None ∧
  if decide (caller = ADMIN_USER cfg) then
    sent o = [(Here, BookReturned)] ∧
    (∀ i, available_of (state o) i =
          if decide (i = isbn) then (λ a, a + 1) <$> available_of d i
          else available_of d i) ∧
    (∀ k : nat, loans (state o) !! k =
          (λ l, if decide (loan_of isbn userid l) then set_returned now l else l)
            <$> loans d !! k) ∧
    filter (active_for userid isbn) (loans (state o)) = [] ∧
    users (state o) = users d
  else
    state o = d ∧
    sent o = [(Here, AuthenticationFailure); (AdminDM, FailedAttemptFrom caller)].
Proof.
  intros _. simpl. case_decide as Hc.
  - subst caller. rewrite return_admin. simpl. repeat split.
    + intros i. apply available_of_alter.
    + intros k. apply lookup_update_where.
    + apply filter_active_for_closed.
  - unfold return_. by rewrite auth_check_other.
Qed.

Lemma return_is_unconditional_witness :
  raised (return_ cfg0 1 dune_isbn 42 (noon + day) after_return) = None ∧
  sent (return_ cfg0 1 dune_isbn 42 (noon + day) after_return)
    = [(Here, BookReturned)] ∧
  available_of (state (return_ cfg0 1 dune_isbn 42 (noon + day) after_return))
    dune_isbn = Some 2.
Proof.
  assert (Hwf : well_formed cfg0 (Return 1 dune_isbn 42 (noon + day)) after_return)
    by by vm_compute.
  pose proof (return_is_unconditional cfg0 1 dune_isbn 42 (noon + day)
                after_return Hwf) as (Hraised & Hadmin).
  split; [exact Hraised|].
  rewrite decide_True in Hadmin by done.
  destruct Hadmin as (Hsent & Havailable & _).
  split; [exact Hsent|]. etrans; [apply Havailable|]. by vm_compute.
Defined.

(** C3, as stated, fails: with no loan at all, a return for user 42 is
    answered as a success and the book goes from 1 to 2 available copies. *)
Lemma return_without_loan_adds_a_copy :
  ¬ Exists (active_for 42 dune_isbn) (loans (library 1)) ∧
  available_of (library 1) dune_isbn = Some 1 ∧
  available_of (state (return_ cfg0 1 dune_isbn 42 noon (library 1))) dune_isbn
    = Some 2 ∧
  sent (return_ cfg0 1 dune_isbn 42 noon (library 1)) = [(Here, BookReturned)] ∧
  raised (return_ cfg0 1 dune_isbn 42 noon (library 1)) = None.
Proof.
  split; [|by vm_compute]. simpl. intros H. by apply Exists_nil in H.
Qed.

(** ** Loan rows, once written *)

Lemma lookup_rewritten_update (P : loan → Prop) `{∀ l, Decision (P l)} f ls (k : nat) l :
  ls !! k = Some l →
  update_where P f ls !! k = Some (if decide (P l) then f l else l).
Proof. intros Hk. by rewrite lookup_update_where, Hk. Qed.

(** Every command leaves each row of the loan table at its position and
    turns it into [rewritten]. *)
Lemma step_loans_lookup cfg c d (k : nat) l :
  loans d !! k = Some l → loans (step cfg c d) !! k = Some (rewritten cfg c l).
Proof.
  intros Hk. unfold step. destruct c as
    [user_id user isbn t_b t_e|caller isbn userid now|caller isbn userid days_ now
    |caller isbn count|caller isbn count|caller isbn now|caller userid|caller userid];
    simpl.
  - destruct (borrow_by_gate cfg user_id user isbn t_b t_e d) as (_ & _ & ->).
    destruct (borrow_gates cfg user_id isbn d); simpl;
      rewrite ?loans_registered; try done.
    by apply lookup_app_l_Some.
  - unfold return_. by_caller cfg caller.
    + rewrite (lookup_rewritten_update _ _ _ _ l) by done.
      destruct (decide (loan_of isbn userid l)).
      * by rewrite decide_True.
      * rewrite decide_False; [done|]. by intros [_ ?].
    + rewrite decide_False; [done|]. by intros [? _].
  - unfold renew. by_caller cfg caller.
    + rewrite (lookup_rewritten_update _ _ _ _ l) by done.
      destruct (decide (loan_of isbn userid l)).
      * by rewrite decide_True.
      * rewrite decide_False; [done|]. by intros [_ ?].
    + rewrite decide_False; [done|]. by intros [? _].
  - unfold add. by by_caller cfg caller.
  - unfold remove, add. by by_caller cfg caller.
  - unfold delete. by_caller cfg caller.
    + assert (Hrow : update_where (loan_on isbn) (set_returned now) (loans d) !! k
                     = Some (if decide (ADMIN_USER cfg = ADMIN_USER cfg ∧ loan_on isbn l)
                             then set_returned now l else l)).
      { rewrite (lookup_rewritten_update _ _ _ _ l) by done.
        destruct (decide (loan_on isbn l)).
        - by rewrite decide_True.
        - rewrite decide_False; [done|]. by intros [_ ?]. }
      by destruct (_ && _).
    + rewrite decide_False; [done|]. by intros [? _].
  - unfold ban. by by_caller cfg caller.
  - unfold unban. by by_caller cfg caller.
Qed.

Lemma rewritten_keeps cfg c l :
  bdate (rewritten cfg c l) = bdate l ∧
  loan_userid (rewritten cfg c l) = loan_userid l ∧
  loan_isbn (rewritten cfg c l) = loan_isbn l ∧
  (returned l = true → returned (rewritten cfg c l) = true).
Proof. destruct c; simpl; try case_decide; done. Qed.

(** C7, as amended.  A loan row with [returned = true] keeps its place in
    the table and stays returned under every well-formed command (plain
    isbn, renewed date a datetime), with the same isbn, userid and bdate;
    it is not frozen, though: the row becomes [rewritten cfg c l], so a
    renew by the administrator for its isbn and userid replaces its
    estrdate, and a return for its isbn and userid or a delete of its isbn
    replaces its rdate by the time of that command. *)
Theorem returned_loan_stays_returned cfg c d (k : nat) l :
  well_formed cfg c d →
  loans d !! k = Some l → returned l = true →
  loans (step cfg c d) !! k = Some (rewritten cfg c l) ∧
  returned (rewritten cfg c l) = true ∧
  bdate (rewritten cfg c l) = bdate l ∧
  loan_userid (rewritten cfg c l) = loan_userid l ∧
  loan_isbn (rewritten cfg c l) = loan_isbn l.
Proof.
  intros _ Hk Hret.
  destruct (rewritten_keeps cfg c l) as (Hb & Hu & Hi & Hr).
  split; [by apply step_loans_lookup|]. auto.
Qed.

Lemma returned_loan_stays_returned_witness :
  loans (step cfg0 (Renew 1 dune_isbn 42 7 (noon + 3 * day)) after_return) !! 0%nat
    = Some (Loan (Some (noon + day)) noon (noon + 3 * day + timedelta 7) true 42 dune_isbn) ∧
  loans (step cfg0 (Delete 1 dune_isbn (noon + 3 * day)) after_return) !! 0%nat
    = Some (Loan (Some (noon + 3 * day)) noon (noon + timedelta 14) true 42 dune_isbn).
Proof.
  split.
  - apply (returned_loan_stays_returned cfg0
             (Renew 1 dune_isbn 42 7 (noon + 3 * day)) after_return 0 returned_loan);
      [by vm_compute|done|done].
  - apply (returned_loan_stays_returned cfg0
             (Delete 1 dune_isbn (noon + 3 * day)) after_return 0 returned_loan);
      [by vm_compute|done|done].
Defined.

(** C7, as stated, fails: a loan that was returned has its estrdate
    replaced by a later renew, and its rdate by a later return and by a
    delete of the book. *)
Lemma returned_loan_is_rewritten :
  returned returned_loan = true ∧
  loans after_return = [returned_loan] ∧
  loans (step cfg0 (Renew 1 dune_isbn 42 7 (noon + 3 * day)) after_return)
    = [set_estrdate (noon + 3 * day + timedelta 7) returned_loan] ∧
  estrdate returned_loan ≠ noon + 3 * day + timedelta 7 ∧
  loans (step cfg0 (Return 1 dune_isbn 42 (noon + 3 * day)) after_return)
    = [set_returned (noon + 3 * day) returned_loan] ∧
  loans (step cfg0 (Delete 1 dune_isbn (noon + 3 * day)) after_return)
    = [set_returned (noon + 3 * day) returned_loan] ∧
  rdate returned_loan ≠ Some (noon + 3 * day).
Proof. by vm_compute. Qed.

(** ** ban and unban *)

Lemma set_ban_unknown v userid d :
  users d !! userid = None → with_users (alter (set_banned v) userid) d = d.
Proof.
  intros Hu. destruct d as [bs us ls fk]. unfold with_users. simpl in *.
  by rewrite alter_id'.
Qed.

(** C8, as amended.  ban and unban of a user that has no row leave the
    database exactly as it was, for every caller; they do not fail: the
    administrator is answered 'User banned.' and 'User unbanned.' and no
    exception is raised.  Whatever the database, neither command adds or
    removes a user row. *)
Theorem ban_unknown_user_is_silent cfg caller userid d :
  users d !! userid = None →
  state (ban cfg caller userid d) = d ∧
  state (unban cfg caller userid d) = d ∧
  ban cfg (ADMIN_USER cfg) userid d = Outcome d [(AdminDM, UserBanned)] None ∧
  unban cfg (ADMIN_USER cfg) userid d = Outcome d [(AdminDM, UserUnbanned)] None ∧
  ∀ d' u,
    dom (users (state (ban cfg caller u d'))) = dom (users d') ∧
    dom (users (state (unban cfg caller u d'))) = dom (users d').
Proof.
  intros Hu. unfold ban, unban. repeat split.
  - by_caller cfg caller; [by apply set_ban_unknown|done].
  - by_caller cfg caller; [by apply set_ban_unknown|done].
  - rewrite auth_check_admin. by rewrite set_ban_unknown.
  - rewrite auth_check_admin. by rewrite set_ban_unknown.
  - by_caller cfg caller; [apply dom_alter_L|done].
  - by_caller cfg caller; [apply dom_alter_L|done].
Qed.

Lemma ban_unknown_user_is_silent_witness :
  ban cfg0 1 42 (library 1) = Outcome (library 1) [(AdminDM, UserBanned)] None ∧
  unban cfg0 1 42 (library 1) = Outcome (library 1) [(AdminDM, UserUnbanned)] None.
Proof.
  destruct (ban_unknown_user_is_silent cfg0 1 42 (library 1))
    as (_ & _ & Hban & Hunban & _); [by vm_compute|].
  split; [exact Hban|exact Hunban].
Defined.

(** C8, as stated, fails: banning or unbanning a user that has no row is
    answered like banning or unbanning a user that has one, and raises
    nothing. *)
Lemma ban_unknown_user_reports_success :
  users (library 1) !! 42 = None ∧
  sent (ban cfg0 1 42 (library 1)) = [(AdminDM, UserBanned)] ∧
  raised (ban cfg0 1 42 (library 1)) = None ∧
  sent (ban cfg0 1 42 (library 1)) = sent (ban cfg0 1 42 after_return) ∧
  sent (unban cfg0 1 42 (library 1)) = [(AdminDM, UserUnbanned)] ∧
  raised (unban cfg0 1 42 (library 1)) = None ∧
  sent (unban cfg0 1 42 (library 1)) = sent (unban cfg0 1 42 after_return).
Proof. by vm_compute. Qed.

(** ** due *)

Lemma strptime_f_ok dt : microsecond dt ≠ 0 → strptime_f dt = Ok dt.
Proof. intros Hus. unfold strptime_f. by rewrite decide_False. Qed.

Lemma strptime_f_whole_second dt : microsecond dt = 0 → strptime_f dt = Raise ValueError.
Proof. intros Hus. unfold strptime_f. by rewrite decide_True. Qed.

(** When every due date parses, the loop builds one entry per row, in
    order, with the book, the date and the days remaining at the clock
    reading of its iteration. *)
Lemma due_books_ok clock d : ∀ res n,
  Forall (λ r, microsecond r.2 ≠ 0) res →
  ∃ rows, due_books clock d n res = Ok rows ∧
    length rows = length res ∧
    ∀ (k : nat) isbn e, res !! k = Some (isbn, e) →
      rows !! k = Some ((λ b, (isbn, b)) <$> books d !! isbn, date e,
                        days_remaining e (clock (n + k)%nat)).
Proof.
  induction res as [|[isbn e] res IH]; intros n Hres.
  - exists []. split; [done|]. split; [done|]. intros k ? ? Hk.
    by rewrite lookup_nil in Hk.
  - apply Forall_cons in Hres as [He Hres]. simpl in He.
    destruct (IH (S n) Hres) as (rows & Hrows & Hlen & Hlook).
    eexists. simpl. rewrite strptime_f_ok by done. simpl. rewrite Hrows. simpl.
    split; [done|]. split; [simpl; by rewrite Hlen|].
    intros [|k] isbn' e' Hk; simpl in *.
    + injection Hk as <- <-. by rewrite Nat.add_0_r.
    + rewrite (Hlook k isbn' e' Hk). repeat f_equal. lia.
Qed.

(** The first due date that does not parse ends the loop with ValueError. *)
Lemma due_books_whole_second clock d : ∀ res n,
  Exists (λ r, microsecond r.2 = 0) res →
  due_books clock d n res = Raise ValueError.
Proof.
  induction res as [|[isbn e] res IH]; intros n Hres.
  - by apply Exists_nil in Hres.
  - simpl. destruct (decide (microsecond e = 0)) as [Hz|Hnz].
    + by rewrite strptime_f_whole_second.
    + rewrite strptime_f_ok by done. simpl.
      apply Exists_cons in Hres as [?|Hres]; [done|].
      by rewrite IH.
Qed.

Lemma format_book_records_ok : ∀ rows,
  Forall (λ row, is_Some row.1.1) rows →
  ∃ messages, format_book_records rows = Ok messages ∧
    length messages = length rows ∧
    ∀ (k : nat) isbn b return_date remaining,
      rows !! k = Some (Some (isbn, b), return_date, remaining) →
      messages !! k = Some (DueNotice isbn b return_date
                              (if decide (remaining <= 0)
                               then Overdue (Z.abs remaining)
                               else Remaining remaining)).
Proof.
  induction rows as [|[[book return_date] remaining] rows IH]; intros Hrows.
  - exists []. split; [done|]. split; [done|]. intros k ? ? ? ? Hk.
    by rewrite lookup_nil in Hk.
  - apply Forall_cons in Hrows as [Hbook Hrows]. simpl in Hbook.
    destruct Hbook as [[isbn b] ->].
    destruct (IH Hrows) as (messages & Hm & Hlen & Hlook).
    eexists. simpl. rewrite Hm. simpl.
    split; [done|]. split; [simpl; by rewrite Hlen|].
    intros [|k] isbn' b' rd' rem' Hk; simpl in *.
    + by injection Hk as <- <- <- <-.
    + by apply Hlook.
Qed.

(** What due reports: when the user has active loans, each due date has a
    microsecond part and each book is in the catalogue, due sends one
    notice per active loan, in the order of the table, with
    [days_remaining] taken at the clock reading of that loan's iteration,
    and classed overdue exactly when it is [<= 0]. *)
Lemma due_reports user_id clock d :
  let active := filter (active_of user_id) (loans d) in
  active ≠ [] →
  Forall (λ l, microsecond (estrdate l) ≠ 0 ∧ is_Some (books d !! loan_isbn l)) active →
  ∃ notices,
    due user_id clock d = Outcome d (respond notices true false) None ∧
    length notices = length active ∧
    ∀ (k : nat) l, active !! k = Some l →
      ∃ b, books d !! loan_isbn l = Some b ∧
           notices !! k = Some (due_notice (loan_isbn l) b (estrdate l) (clock k)).
Proof.
  intros active Hne Hall. unfold due, select_due. fold active.
  rewrite decide_False
    by (rewrite length_fmap; intros Hz; by apply length_zero_iff_nil in Hz).
  set (res := (λ l, (loan_isbn l, estrdate l)) <$> active).
  assert (Hparse : Forall (λ r, microsecond r.2 ≠ 0) res).
  { apply Forall_fmap. eapply Forall_impl; [exact Hall|]. by intros l [? _]. }
  destruct (due_books_ok clock d res 0 Hparse) as (rows & -> & Hlen & Hrows).
  assert (Hbooks : Forall (λ row, is_Some row.1.1) rows).
  { apply Forall_lookup. intros k row Hk.
    assert (Hlt : (k < length res)%nat) by (rewrite <- Hlen; by eapply lookup_lt_Some).
    apply lookup_lt_is_Some in Hlt as [[isbn e] Hr].
    pose proof Hr as Hr'. unfold res in Hr'.
    rewrite list_lookup_fmap in Hr'.
    destruct (active !! k) as [l|] eqn:Hl; [|done]. injection Hr' as <- <-.
    rewrite (Hrows k _ _ Hr) in Hk. injection Hk as <-. simpl.
    rewrite Forall_lookup in Hall. destruct (Hall k l Hl) as [_ [b ->]]. by eexists. }
  destruct (format_book_records_ok rows Hbooks) as (messages & -> & Hlen' & Hmsgs).
  exists messages. split; [done|].
  split; [rewrite Hlen', Hlen; unfold res; by rewrite length_fmap|].
  intros k l Hl. rewrite Forall_lookup in Hall.
  destruct (Hall k l Hl) as [_ [b Hb]]. exists b. split; [done|].
  assert (Hr : res !! k = Some (loan_isbn l, estrdate l))
    by (unfold res; by rewrite list_lookup_fmap, Hl).
  specialize (Hrows k _ _ Hr). rewrite Hb in Hrows. simpl in Hrows.
  by apply Hmsgs.
Qed.

(** The rule on the two dates of the specification: a loan due at the
    clock reading has one day remaining, a loan due a day before it has
    none, which is already classed overdue. *)
Lemma days_remaining_due_now now :
  days_remaining now now = 1 ∧ days_remaining (now - day) now = 0.
Proof.
  unfold days_remaining. split.
  - by rewrite Z.sub_diag.
  - replace (now - day - now) with (-1 * day) by lia.
    by rewrite Z.div_mul.
Qed.

(** Whenever one of the user's active loans is due at a whole second, due
    ends with ValueError and sends nothing, whatever the other loans are. *)
Lemma due_whole_second user_id clock d :
  Exists (λ l, microsecond (estrdate l) = 0) (filter (active_of user_id) (loans d)) →
  due user_id clock d = Outcome d [] (Some ValueError).
Proof.
  intros Hex. unfold due, select_due.
  assert (Hres : Exists (λ r, microsecond r.2 = 0)
            ((λ l, (loan_isbn l, estrdate l)) <$> filter (active_of user_id) (loans d))).
  { apply Exists_fmap. eapply Exists_impl; [exact Hex|]. done. }
  rewrite decide_False.
  - by rewrite due_books_whole_second.
  - intros Hz. apply length_zero_iff_nil in Hz. rewrite Hz in Hres.
    by apply Exists_nil in Hres.
Qed.

(** C9, on the code.  A book borrowed at 12:00:00 sharp is due at a whole
    second; due for its borrower then raises ValueError and reports no days
    remaining at all, where the same loan taken 250 microseconds later is
    reported with [days_remaining]. *)
Lemma due_fails_on_whole_second_due_date :
  let d := step cfg0 (Borrow 42 "ann" dune_isbn noon_sharp noon_sharp) (library 1) in
  let d' := step cfg0 (Borrow 42 "ann" dune_isbn noon noon) (library 1) in
  filter (active_of 42) (loans d)
    = [Loan None noon_sharp (noon_sharp + timedelta 14) false 42 dune_isbn] ∧
  microsecond (noon_sharp + timedelta 14) = 0 ∧
  due 42 (λ _, noon + day) d = Outcome d [] (Some ValueError) ∧
  due 42 (λ _, noon + day) d'
    = Outcome d' [(DirectMessage,
                   DueNotice dune_isbn (dune 0) (date (noon + timedelta 14))
                     (Remaining (days_remaining (noon + timedelta 14) (noon + day))))]
              None.
Proof. by vm_compute. Qed.

(** * Further properties of the commands *)

(** ** Callers that are not the administrator *)

(** X1.  A command that starts with auth_check (return, renew, add,
    remove, delete, ban, unban), sent by anyone but the administrator,
    leaves the database as it was, raises nothing, and sends
    'Authentication failure.' to the caller and the failed attempt to the
    administrator. *)
Theorem refused_caller_changes_nothing cfg c caller d :
  privileged_caller c = Some caller → caller ≠ ADMIN_USER cfg →
  exec cfg c d =
    Outcome d [(Here, AuthenticationFailure); (AdminDM, FailedAttemptFrom caller)] None.
Proof.
  intros Hc Hne.
  destruct c; simpl in Hc; try discriminate; injection Hc as ->; simpl;
    unfold return_, renew, remove, add, delete, ban, unban;
    by rewrite auth_check_other.
Qed.

Lemma refused_caller_changes_nothing_witness :
  exec cfg0 (Delete 42 dune_isbn noon) after_return =
    Outcome after_return
      [(Here, AuthenticationFailure); (AdminDM, FailedAttemptFrom 42)] None.
Proof. by apply refused_caller_changes_nothing. Defined.

(** ** The loan table, command by command *)

Lemma update_where_rewritten (P : loan → Prop) `{∀ l, Decision (P l)} f g ls :
  (∀ l, g l = if decide (P l) then f l else l) →
  update_where P f ls = g <$> ls.
Proof.
  intros Hg. unfold update_where. apply list_fmap_ext. intros _ l _. by rewrite Hg.
Qed.

Lemma fmap_unchanged (g : loan → loan) (ls : list loan) :
  (∀ l, g l = l) → g <$> ls = ls.
Proof.
  intros Hg. etrans; [|apply list_fmap_id]. apply list_fmap_ext. intros _ l _. apply Hg.
Qed.

(** Every command rewrites the rows of the loan table in place and appends
    at most the new loan of a borrow. *)
Lemma step_loans cfg c d :
  loans (step cfg c d) = (rewritten cfg c <$> loans d) ++ appended cfg c d.
Proof.
  unfold step. destruct c as
    [user_id user isbn t_b t_e|caller isbn userid now|caller isbn userid days_ now
    |caller isbn count|caller isbn count|caller isbn now|caller userid|caller userid];
    simpl; rewrite ?app_nil_r.
  - destruct (borrow_by_gate cfg user_id user isbn t_b t_e d) as (_ & _ & ->).
    rewrite fmap_unchanged by done.
    destruct (borrow_gates cfg user_id isbn d); simpl;
      by rewrite ?loans_registered, ?app_nil_r.
  - unfold return_. by_caller cfg caller.
    + apply update_where_rewritten. intros l. simpl.
      destruct (decide (loan_of isbn userid l)).
      * by rewrite decide_True.
      * rewrite decide_False; [done|]. by intros [_ ?].
    + rewrite fmap_unchanged; [done|]. intros l. simpl.
      rewrite decide_False; [done|]. by intros [? _].
  - unfold renew. by_caller cfg caller.
    + apply update_where_rewritten. intros l. simpl.
      destruct (decide (loan_of isbn userid l)).
      * by rewrite decide_True.
      * rewrite decide_False; [done|]. by intros [_ ?].
    + rewrite fmap_unchanged; [done|]. intros l. simpl.
      rewrite decide_False; [done|]. by intros [? _].
  - rewrite fmap_unchanged by done. unfold add. by by_caller cfg caller.
  - rewrite fmap_unchanged by done. unfold remove, add. by by_caller cfg caller.
  - unfold delete. by_caller cfg caller.
    + assert (Hrows : update_where (loan_on isbn) (set_returned now) (loans d)
                      = rewritten cfg (Delete (ADMIN_USER cfg) isbn now) <$> loans d).
      { apply update_where_rewritten. intros l. simpl.
        destruct (decide (loan_on isbn l)).
        - by rewrite decide_True.
        - rewrite decide_False; [done|]. by intros [_ ?]. }
      by destruct (_ && _).
    + rewrite fmap_unchanged; [done|]. intros l. simpl.
      rewrite decide_False; [done|]. by intros [? _].
  - rewrite fmap_unchanged by done. unfold ban. by by_caller cfg caller.
  - rewrite fmap_unchanged by done. unfold unban. by by_caller cfg caller.
Qed.

Lemma run_snoc cfg cs c d : run cfg (cs ++ [c]) d = step cfg c (run cfg cs d).
Proof. unfold run. by rewrite foldl_app. Qed.

(** X2.  The loan table is a history: over any sequence of commands a row
    stays at its position and keeps its isbn, userid and bdate, a returned
    row stays returned, and the table never gets shorter. *)
Theorem ledger_is_append_only cfg cs d (k : nat) l :
  loans d !! k = Some l →
  (length (loans d) ≤ length (loans (run cfg cs d)))%nat ∧
  ∃ l', loans (run cfg cs d) !! k = Some l' ∧
        loan_isbn l' = loan_isbn l ∧ loan_userid l' = loan_userid l ∧
        bdate l' = bdate l ∧ (returned l = true → returned l' = true).
Proof.
  intros Hk. induction cs as [|c cs IH] using rev_ind.
  - split; [done|]. by exists l.
  - destruct IH as (Hlen & l' & Hk' & Hi & Hu & Hb & Hr).
    rewrite run_snoc, step_loans. split.
    + rewrite length_app, length_fmap. lia.
    + exists (rewritten cfg c l').
      destruct (rewritten_keeps cfg c l') as (Hb' & Hu' & Hi' & Hr').
      split.
      * apply lookup_app_l_Some. by rewrite list_lookup_fmap, Hk'.
      * repeat split; [congruence..|]. auto.
Qed.

Lemma ledger_is_append_only_witness :
  ∃ l', loans (run cfg0 [Renew 1 dune_isbn 42 7 (noon + 3 * day);
                         Borrow 42 "ann" dune_isbn (noon + 4 * day) (noon + 4 * day);
                         Delete 1 dune_isbn (noon + 5 * day)] after_return) !! 0%nat
          = Some l' ∧
        loan_isbn l' = dune_isbn ∧ loan_userid l' = 42 ∧
        bdate l' = noon ∧ (returned returned_loan = true → returned l' = true).
Proof.
  by apply (ledger_is_append_only cfg0 _ after_return 0 returned_loan).
Defined.

(** ** The loan limit *)

Lemma filter_fmap_le (Q : loan → Prop) `{∀ l, Decision (Q l)} (g : loan → loan) ls :
  (∀ l, Q (g l) → Q l) →
  (length (filter Q (g <$> ls)) ≤ length (filter Q ls))%nat.
Proof.
  intros Hg. induction ls as [|l ls IH]; [done|].
  rewrite fmap_cons, !filter_cons.
  repeat case_decide; simpl; try lia. exfalso. eauto.
Qed.

(** No command makes a row active again, or moves it to another user or
    book. *)
Lemma rewritten_active cfg c l :
  returned (rewritten cfg c l) = false →
  returned l = false ∧ loan_userid (rewritten cfg c l) = loan_userid l ∧
  loan_isbn (rewritten cfg c l) = loan_isbn l.
Proof. destruct c; simpl; try case_decide; done. Qed.

Lemma active_of_rewritten cfg c u l : active_of u (rewritten cfg c l) → active_of u l.
Proof.
  intros [Hu Hr]. destruct (rewritten_active cfg c l Hr) as (? & Hu' & _).
  split; [congruence|done].
Qed.

Lemma appended_cases cfg c d :
  appended cfg c d = [] ∨
  ∃ user_id user isbn t_b t_e,
    c = Borrow user_id user isbn t_b t_e ∧
    borrow_gates cfg user_id isbn d = GateOpen ∧
    appended cfg c d = [new_loan cfg user_id isbn t_b t_e].
Proof.
  destruct c; simpl; try by left.
  case_decide; [|by left]. right. by repeat eexists.
Qed.

(** X3.  If no user holds more than MAX_LOANS active loans, then after
    every command of any sequence none does: borrow adds a loan only below
    the limit and no other command adds an active loan. *)
Theorem loan_limit_respected cfg cs d :
  within_limit cfg d → Forall (within_limit cfg) (trace cfg cs d).
Proof.
  revert d. induction cs as [|c cs IH]; intros d Hd; simpl; [constructor|].
  assert (Hstep : within_limit cfg (step cfg c d)).
  { intros u. rewrite step_loans, filter_app, length_app.
    pose proof (filter_fmap_le (active_of u) (rewritten cfg c) (loans d)
                  (active_of_rewritten cfg c u)) as Hle.
    specialize (Hd u).
    destruct (appended_cases cfg c d)
      as [->|(user_id & user & isbn & t_b & t_e & -> & Hopen & ->)];
      [rewrite filter_nil; simpl; lia|].
    apply borrow_gates_open in Hopen as (_ & _ & _ & _ & _ & Hlim).
    rewrite filter_cons, filter_nil.
    destruct (decide (active_of u (new_loan cfg user_id isbn t_b t_e)))
      as [[Hu _]|_]; simpl in *; [|lia].
    subst u. lia. }
  constructor; [done|]. by apply IH.
Qed.

Lemma loan_limit_respected_witness :
  Forall (within_limit cfg0)
    (trace cfg0 [Borrow 42 "ann" dune_isbn noon noon;
                 Borrow 42 "ann" "9780441172696" noon noon;
                 Return 1 dune_isbn 42 (noon + day);
                 Borrow 42 "ann" dune_isbn (noon + 2 * day) (noon + 2 * day)]
           (library 3)).
Proof.
  apply loan_limit_respected. intros u. simpl. unfold cfg0. simpl. lia.
Defined.

(** ** Active loans and the catalogue *)

(** A book stays in the catalogue unless the administrator deletes it. *)
Lemma step_books_kept cfg c d i :
  is_Some (books d !! i) →
  is_Some (books (step cfg c d) !! i) ∨ ∃ now, c = Delete (ADMIN_USER cfg) i now.
Proof.
  intros Hi. unfold step. destruct c as
    [user_id user isbn t_b t_e|caller isbn userid now|caller isbn userid days_ now
    |caller isbn count|caller isbn count|caller isbn now|caller userid|caller userid];
    simpl.
  - left. destruct (borrow_by_gate cfg user_id user isbn t_b t_e d) as (_ & _ & ->).
    destruct (borrow_gates cfg user_id isbn d); simpl;
      rewrite ?books_registered; try done.
    by apply lookup_alter_is_Some.
  - left. unfold return_. by_caller cfg caller; [|done].
    by apply lookup_alter_is_Some.
  - left. unfold renew. by by_caller cfg caller.
  - left. unfold add. by_caller cfg caller; [|done]. by apply lookup_alter_is_Some.
  - left. unfold remove, add. by_caller cfg caller; [|done].
    by apply lookup_alter_is_Some.
  - unfold delete. by_caller cfg caller; [|by left].
    destruct (_ && _); simpl; [by left|].
    destruct (decide (isbn = i)) as [->|Hne]; [right; by eexists|].
    left. by rewrite lookup_delete_ne.
  - left. unfold ban. by by_caller cfg caller.
  - left. unfold unban. by by_caller cfg caller.
Qed.

Lemma step_loans_have_books cfg c d :
  loans_have_books d → loans_have_books (step cfg c d).
Proof.
  intros Hd l'. rewrite step_loans, elem_of_app.
  intros [Hin|Hin] Hactive.
  - apply list_elem_of_fmap in Hin as (l & -> & Hl).
    destruct (rewritten_active cfg c l Hactive) as (Hr & _ & Hi).
    rewrite Hi.
    destruct (step_books_kept cfg c d (loan_isbn l)) as [?|[now ->]];
      [by apply Hd|done|].
    simpl in Hactive. by rewrite decide_True in Hactive.
  - destruct (appended_cases cfg c d)
      as [Hnil|(user_id & user & isbn & t_b & t_e & -> & Hopen & Hnew)];
      [rewrite Hnil in Hin; by apply elem_of_nil in Hin|].
    rewrite Hnew in Hin. apply list_elem_of_singleton in Hin as ->. simpl.
    apply borrow_gates_open in Hopen as (b & Hb & _).
    destruct (step_books_kept cfg (Borrow user_id user isbn t_b t_e) d isbn)
      as [?|[now [=]]]; [by eexists|done].
Qed.

(** X4.  If every active loan is a loan of a catalogued book, this holds
    after every command of any sequence of well-formed commands: borrow
    lends catalogued books only, and a delete that removes a book has
    closed all its loans. *)
Theorem active_loans_have_books cfg cs d :
  loans_have_books d → well_formed_run cfg cs d →
  Forall loans_have_books (trace cfg cs d).
Proof.
  revert d. induction cs as [|c cs IH]; intros d Hd Hwf; simpl; [constructor|].
  destruct Hwf as [_ Hwf].
  assert (loans_have_books (step cfg c d)) by by apply step_loans_have_books.
  constructor; [done|]. by apply IH.
Qed.

Lemma active_loans_have_books_witness :
  Forall loans_have_books
    (trace cfg0 [Borrow 42 "ann" dune_isbn noon noon;
                 Delete 1 dune_isbn (noon + day);
                 Borrow 42 "ann" dune_isbn (noon + 2 * day) (noon + 2 * day)]
           (library 3)).
Proof.
  apply active_loans_have_books.
  - intros l Hl. by apply elem_of_nil in Hl.
  - by vm_compute.
Defined.

(** ** due, whatever the loans *)

Lemma due_no_loans user_id clock d :
  filter (active_of user_id) (loans d) = [] →
  due user_id clock d = Outcome d [(Here, NoLoans); (Here, HelpHint)] None.
Proof. intros Hnone. unfold due, select_due. by rewrite Hnone. Qed.

(** X5.  Where every active loan is a loan of a catalogued book, due never
    fails on a missing book.  For a user without active loans it sends the
    two help messages to the channel it was called in; if one of the user's
    active loans is due at a whole second it raises ValueError and sends
    nothing; otherwise it raises nothing and sends one notice per active
    loan to the user's DM.  It never changes the database. *)
Theorem due_outcomes user_id clock d :
  loans_have_books d →
  let active := filter (active_of user_id) (loans d) in
  let whole_second := Exists (λ l, microsecond (estrdate l) = 0) active in
  state (due user_id clock d) = d ∧
  raised (due user_id clock d) =
    (if decide whole_second then Some ValueError else None) ∧
  (active = [] → sent (due user_id clock d) = [(Here, NoLoans); (Here, HelpHint)]) ∧
  (whole_second → sent (due user_id clock d) = []) ∧
  (active ≠ [] → ¬ whole_second →
   ∃ notices, sent (due user_id clock d) = respond notices true false ∧
              length notices = length active).
Proof.
  intros Hd active whole_second.
  destruct (decide whole_second) as [Hws|Hws].
  - rewrite (due_whole_second user_id clock d Hws). simpl.
    repeat split; try done.
    intros Hnil. unfold whole_second in Hws. fold active in Hws.
    rewrite Hnil in Hws. by apply Exists_nil in Hws.
  - destruct (decide (active = [])) as [Hnil|Hne].
    + rewrite (due_no_loans user_id clock d Hnil). by repeat split.
    + assert (Hall : Forall (λ l, microsecond (estrdate l) ≠ 0
                                  ∧ is_Some (books d !! loan_isbn l)) active).
      { apply Forall_forall. intros l Hin. pose proof Hin as Hl.
        apply list_elem_of_filter in Hl as [[_ Hr] Hl]. split; [|by apply Hd].
        intros Hz. apply Hws. apply Exists_exists. by exists l. }
      destruct (due_reports user_id clock d Hne Hall) as (notices & -> & Hlen & _).
      simpl. repeat split; try done. intros _ _. by exists notices.
Qed.

Lemma due_outcomes_witness :
  raised (due 42 (λ _, noon + day)
            (step cfg0 (Borrow 42 "ann" dune_isbn noon noon) (library 3))) = None.
Proof.
  assert (Hd : loans_have_books
                 (step cfg0 (Borrow 42 "ann" dune_isbn noon noon) (library 3))).
  { apply (step_loans_have_books cfg0 _ (library 3)).
    intros l Hl. by apply elem_of_nil in Hl. }
  pose proof (due_outcomes 42 (λ _, noon + day) _ Hd) as (_ & Hraised & _).
  etrans; [exact Hraised|]. by vm_compute.
Defined.

(** ** Users *)

Lemma ban_admin cfg userid d :
  ban cfg (ADMIN_USER cfg) userid d =
  Outcome (with_users (alter (set_banned true) userid) d) [(AdminDM, UserBanned)] None.
Proof. unfold ban. by rewrite auth_check_admin. Qed.

Lemma unban_admin cfg userid d :
  unban cfg (ADMIN_USER cfg) userid d =
  Outcome (with_users (alter (set_banned false) userid) d) [(AdminDM, UserUnbanned)] None.
Proof. unfold unban. by rewrite auth_check_admin. Qed.



(** X7.  For a user that is not banned, or has no row, a ban followed by
    an unban gives back the database exactly. *)
Theorem unban_undoes_ban cfg userid d :
  is_banned userid d = false →
  state (unban cfg (ADMIN_USER cfg) userid (state (ban cfg (ADMIN_USER cfg) userid d)))
    = d.
Proof.
  unfold is_banned. intros Hb. rewrite ban_admin, unban_admin.
  destruct d as [bs us ls fk]. unfold with_users. simpl in *. f_equal.
  rewrite alter_alter_eq. apply alter_id. intros [name flag] Hx.
  rewrite Hx in Hb. simpl in Hb. by subst flag.
Qed.

Lemma unban_undoes_ban_witness :
  state (unban cfg0 1 42 (state (ban cfg0 1 42 after_return))) = after_return.
Proof. by apply unban_undoes_ban. Defined.

Lemma step_users cfg c d u usr :
  users d !! u = Some usr →
  ∃ usr', users (step cfg c d) !! u = Some usr' ∧ username usr' = username usr.
Proof.
  intros Hu. unfold step. destruct c as
    [user_id user isbn t_b t_e|caller isbn userid now|caller isbn userid days_ now
    |caller isbn count|caller isbn count|caller isbn now|caller userid|caller userid];
    simpl.
  - destruct (borrow_by_gate cfg user_id user isbn t_b t_e d) as (_ & _ & ->).
    assert (Hreg : users (registered user_id user d) !! u = Some usr).
    { unfold registered. destruct (users d !! user_id) eqn:Hid; [done|].
      simpl. rewrite lookup_insert_ne; [done|]. congruence. }
    destruct (borrow_gates cfg user_id isbn d); simpl; eauto.
  - unfold return_. by_caller cfg caller; eauto.
  - unfold renew. by_caller cfg caller; eauto.
  - unfold add. by_caller cfg caller; eauto.
  - unfold remove, add. by_caller cfg caller; eauto.
  - unfold delete. by_caller cfg caller; [|by eauto].
    destruct (_ && _); simpl; eauto.
  - unfold ban. by_caller cfg caller; [|by eauto].
    rewrite lookup_alter. case_decide; [subst; rewrite Hu|]; simpl; eauto.
  - unfold unban. by_caller cfg caller; [|by eauto].
    rewrite lookup_alter. case_decide; [subst; rewrite Hu|]; simpl; eauto.
Qed.

(** X8.  No sequence of commands removes a user or changes the name
    stored when the user was first seen. *)
Theorem users_are_kept cfg cs d u usr :
  users d !! u = Some usr →
  ∃ usr', users (run cfg cs d) !! u = Some usr' ∧ username usr' = username usr.
Proof.
  intros Hu. induction cs as [|c cs IH] using rev_ind; [by exists usr|].
  destruct IH as (usr1 & Hu1 & Hn1). rewrite run_snoc.
  destruct (step_users cfg c _ u usr1 Hu1) as (usr2 & Hu2 & Hn2).
  exists usr2. split; [done|congruence].
Qed.

Lemma users_are_kept_witness :
  ∃ usr', users (run cfg0 [Ban 1 42; Borrow 42 "anne" dune_isbn noon noon;
                           Delete 1 dune_isbn noon] after_return) !! 42 = Some usr'
          ∧ username usr' = "ann".
Proof.
  by apply (users_are_kept cfg0 _ after_return 42 (User "ann" false)).
Defined.

(** X9.  A well-formed borrow (plain user name and isbn) by a user
    without a row inserts the row (name of the author, not banned) and
    greets the user, whether or not the borrow then succeeds; a borrow by
    a user that has a row leaves the user table as it is. *)
Theorem borrow_registers_first_timer cfg user_id user isbn t_b t_e d :
  well_formed cfg (Borrow user_id user isbn t_b t_e) d →
  match users d !! user_id with
  | None =>
      users (state (borrow cfg user_id user isbn t_b t_e d))
        = <[user_id := User user false]> (users d) ∧
      (DirectMessage, Welcome user_id) ∈ sent (borrow cfg user_id user isbn t_b t_e d)
  | Some _ =>
      users (state (borrow cfg user_id user isbn t_b t_e d)) = users d
  end.
Proof.
  intros _.
  destruct (borrow_by_gate cfg user_id user isbn t_b t_e d) as (Hsent & _ & Hstate).
  destruct (users d !! user_id) as [res|] eqn:Hu.
  - rewrite Hstate.
    destruct (borrow_gates cfg user_id isbn d); simpl;
      unfold registered; by rewrite ?Hu.
  - assert (Hg : borrow_gates cfg user_id isbn d ≠ GateBanned).
    { unfold borrow_gates, is_banned. rewrite Hu.
      repeat (case_bool_decide; [done|]).
      destruct (books d !! isbn); [by case_bool_decide|done]. }
    rewrite Hsent, Hstate. unfold borrow_reply, welcome, registered. rewrite Hu.
    destruct (borrow_gates cfg user_id isbn d); simpl; try done;
      (split; [done|]); try apply list_elem_of_here.
    do 2 apply list_elem_of_further. apply list_elem_of_here.
Qed.

Lemma borrow_registers_first_timer_witness :
  users (state (borrow cfg0 42 "ann" dune_isbn noon noon (library 0)))
    = <[42 := User "ann" false]> (users (library 0)) ∧
  (DirectMessage, Welcome 42) ∈ sent (borrow cfg0 42 "ann" dune_isbn noon noon (library 0)).
Proof.
  by apply (borrow_registers_first_timer cfg0 42 "ann" dune_isbn noon noon (library 0)).
Defined.

(** ** Copies *)

(** X10.  add and remove for a plain isbn that is not in the catalogue
    change nothing, create no book, and still answer 'Book count
    modified.'. *)
Theorem adjust_absent_book cfg isbn count d :
  plain isbn →
  books d !! isbn = None →
  add cfg (ADMIN_USER cfg) isbn count d
    = Outcome d [(AdminDM, BookCountModified)] None ∧
  remove cfg (ADMIN_USER cfg) isbn count d
    = Outcome d [(AdminDM, BookCountModified)] None.
Proof.
  intros _ Hb.
  assert (Hsame : ∀ f, with_books (alter f isbn) d = d).
  { intros f. destruct d as [bs us ls fk]. unfold with_books. simpl in *.
    by rewrite alter_id'. }
  rewrite remove_admin, add_admin. by rewrite !Hsame.
Qed.

Lemma adjust_absent_book_witness :
  add cfg0 1 dune_isbn 5 empty_library
    = Outcome empty_library [(AdminDM, BookCountModified)] None.
Proof. by apply (adjust_absent_book cfg0 dune_isbn 5 empty_library). Defined.

Lemma set_available_inverse (f g : Z → Z) b :
  (∀ a, f (g a) = a) → set_available f (set_available g b) = b.
Proof. intros Hfg. destruct b. unfold set_available. simpl. by rewrite Hfg. Qed.

(** X11.  Removing the copies that were just added gives back the
    database exactly, for every count that is not negative, when both
    commands are well formed (plain isbn, counts and sums 64-bit
    integers). *)
Theorem remove_undoes_add cfg isbn count d :
  0 <= count →
  well_formed cfg (Add (ADMIN_USER cfg) isbn count) d →
  well_formed cfg (Remove (ADMIN_USER cfg) isbn count)
    (state (add cfg (ADMIN_USER cfg) isbn count d)) →
  state (remove cfg (ADMIN_USER cfg) isbn count
           (state (add cfg (ADMIN_USER cfg) isbn count d))) = d.
Proof.
  intros Hc _ _. rewrite add_admin, remove_admin.
  destruct d as [bs us ls fk]. unfold with_books. simpl. f_equal.
  rewrite alter_alter_eq. apply alter_id. intros b _. simpl.
  apply set_available_inverse. intros a. lia.
Qed.

Lemma remove_undoes_add_witness :
  state (remove cfg0 1 dune_isbn 4 (state (add cfg0 1 dune_isbn 4 (library 2))))
    = library 2.
Proof. apply remove_undoes_add; [lia|by vm_compute|by vm_compute]. Defined.

(** X12.  After a well-formed borrow that succeeded, a well-formed return
    by the administrator for the same user and book puts the catalogue
    back as it was before the borrow, leaves the pair without an active
    loan, and keeps the loan as a returned row with rdate the time of the
    return. *)
Theorem return_undoes_borrow cfg user_id user isbn t_b t_e now d :
  well_formed cfg (Borrow user_id user isbn t_b t_e) d →
  well_formed cfg (Return (ADMIN_USER cfg) isbn user_id now)
    (state (borrow cfg user_id user isbn t_b t_e d)) →
  (DirectMessage, BookIsYours) ∈ sent (borrow cfg user_id user isbn t_b t_e d) →
  books (state (return_ cfg (ADMIN_USER cfg) isbn user_id now
                  (state (borrow cfg user_id user isbn t_b t_e d)))) = books d ∧
  filter (active_for user_id isbn)
    (loans (state (return_ cfg (ADMIN_USER cfg) isbn user_id now
                     (state (borrow cfg user_id user isbn t_b t_e d))))) = [] ∧
  loans (state (return_ cfg (ADMIN_USER cfg) isbn user_id now
                  (state (borrow cfg user_id user isbn t_b t_e d))))
    !! length (loans d)
    = Some (set_returned now (new_loan cfg user_id isbn t_b t_e)).
Proof.
  intros _ _ Hin.
  destruct (borrow_by_gate cfg user_id user isbn t_b t_e d) as (Hsent & _ & Hstate).
  rewrite Hsent in Hin. apply book_is_yours_only_when_open in Hin.
  rewrite Hin in Hstate. rewrite Hstate, return_admin. simpl.
  rewrite books_registered, loans_registered.
  split; [|split].
  - rewrite alter_alter_eq. apply alter_id. intros b _. simpl.
    apply set_available_inverse. intros a. lia.
  - apply filter_active_for_closed.
  - rewrite lookup_update_where, lookup_app_r by done.
    rewrite Nat.sub_diag. simpl. by rewrite decide_True.
Qed.

Lemma return_undoes_borrow_witness :
  books (state (return_ cfg0 1 dune_isbn 42 (noon + day)
                  (state (borrow cfg0 42 "ann" dune_isbn noon noon (library 3)))))
    = books (library 3).
Proof.
  apply (return_undoes_borrow cfg0 42 "ann" dune_isbn noon noon (noon + day) (library 3));
    [by vm_compute|by vm_compute|].
  vm_compute. do 3 apply list_elem_of_further. apply list_elem_of_here.
Defined.

Lemma on_loan_after_return isbn userid now i ls :
  (length (filter (active_on i)
             (update_where (loan_of isbn userid) (set_returned now) ls))
   + (if decide (i = isbn) then length (filter (active_for userid isbn) ls) else 0)
   = length (filter (active_on i) ls))%nat.
Proof.
  unfold update_where. induction ls as [|l ls IH]; [by case_decide|].
  rewrite fmap_cons, !filter_cons.
  unfold active_on, active_for, loan_of in *.
  repeat case_decide; simpl in *; try lia; exfalso; subst;
    destruct (returned l) eqn:Hr; firstorder congruence.
Qed.

Lemma on_loan_after_renew (P : loan → Prop) `{∀ l, Decision (P l)} t i ls :
  length (filter (active_on i) (update_where P (set_estrdate t) ls))
  = length (filter (active_on i) ls).
Proof.
  unfold update_where. induction ls as [|l ls IH]; [done|].
  rewrite fmap_cons, !filter_cons.
  unfold active_on in *.
  repeat case_decide; simpl in *; try lia; exfalso; subst;
    destruct (returned l) eqn:Hr; firstorder congruence.
Qed.

Lemma stock_unchanged d d' i :
  books d' = books d → loans d' = loans d → stock d' i = stock d i.
Proof. unfold stock, on_loan. by intros -> ->. Qed.

(** X13.  Copies are conserved: for every book, the available copies plus
    the copies out on loan are the same before and after a well-formed
    borrow, renew, ban, unban, return for a pair that has an active loan,
    and any command of a caller that is not the administrator, provided no
    pair has two active loans. *)
Theorem copies_are_conserved cfg c d i :
  unique_active d → conserving cfg c d → well_formed cfg c d →
  stock (step cfg c d) i = stock d i.
Proof.
  intros Huniq Hc _. unfold step. destruct c as
    [user_id user isbn t_b t_e|caller isbn userid now|caller isbn userid days_ now
    |caller isbn count|caller isbn count|caller isbn now|caller userid|caller userid];
    simpl in *.
  - destruct (borrow_by_gate cfg user_id user isbn t_b t_e d) as (_ & _ & ->).
    destruct (borrow_gates cfg user_id isbn d) eqn:Hg;
      try (apply stock_unchanged; by rewrite ?books_registered, ?loans_registered).
    unfold stock, on_loan. simpl.
    rewrite books_registered, loans_registered, lookup_alter.
    rewrite filter_app, length_app, filter_cons, filter_nil.
    destruct (decide (isbn = i)) as [->|Hne].
    + rewrite decide_True by done. destruct (books d !! i) as [b|]; [|done].
      simpl. f_equal. lia.
    + rewrite decide_False by (by intros [? _]).
      destruct (books d !! i) as [b|]; [|done]. simpl. f_equal. lia.
  - unfold return_. destruct (decide (caller = ADMIN_USER cfg)) as [->|Hne].
    + rewrite auth_check_admin. simpl.
      destruct Hc as [?|Hex]; [done|].
      assert (Hone : length (filter (active_for userid isbn) (loans d)) = 1%nat).
      { specialize (Huniq userid isbn).
        destruct (length (filter (active_for userid isbn) (loans d))) as [|n] eqn:Hn;
          [|lia].
        by apply (filter_length_zero (active_for userid isbn)) in Hn. }
      pose proof (on_loan_after_return isbn userid now i (loans d)) as Hcount.
      unfold stock, on_loan. simpl. rewrite lookup_alter.
      destruct (decide (isbn = i)) as [->|Hne].
      * rewrite decide_True in Hcount by done.
        destruct (books d !! i) as [b|]; [|done]. simpl. f_equal. lia.
      * rewrite decide_False in Hcount by done.
        destruct (books d !! i) as [b|]; [|done]. simpl. f_equal. lia.
    + by rewrite auth_check_other.
  - unfold renew. by_caller cfg caller; [|done].
    unfold stock, on_loan. simpl. by rewrite on_loan_after_renew.
  - unfold add. by rewrite auth_check_other.
  - unfold remove, add. by rewrite auth_check_other.
  - unfold delete. by rewrite auth_check_other.
  - unfold ban. by by_caller cfg caller.
  - unfold unban. by by_caller cfg caller.
Qed.

Lemma copies_are_conserved_witness :
  stock (step cfg0 (Return 1 dune_isbn 42 (noon + day))
           (step cfg0 (Borrow 42 "ann" dune_isbn noon noon) (library 3))) dune_isbn
  = stock (step cfg0 (Borrow 42 "ann" dune_isbn noon noon) (library 3)) dune_isbn.
Proof.
  apply copies_are_conserved.
  - apply step_unique_active. by apply unique_active_no_loans.
  - right. vm_compute. apply Exists_cons_hd. done.
  - by vm_compute.
Defined.

(** ** delete *)

Lemma filter_active_on_closed isbn now ls :
  filter (active_on isbn) (update_where (loan_on isbn) (set_returned now) ls) = [].
Proof.
  unfold update_where. induction ls as [|l ls IH]; [done|].
  rewrite fmap_cons, filter_cons, IH.
  case_decide as Hact; [|done]. exfalso.
  destruct (decide (loan_on isbn l)) as [|Hno].
  - by destruct Hact as [_ ?].
  - destruct Hact as [? _]. by apply Hno.
Qed.

(** X14.  After a well-formed delete (plain isbn) by the administrator no
    loan of the book is active, whether the delete went through or not.
    On a connection that enforces foreign keys, for a catalogued book that
    has a loan row, delete raises IntegrityError, answers nothing and
    keeps the whole catalogue, the book with its available count included,
    although its loans have been closed; in every other case it raises
    nothing, removes the book and answers 'Book deleted.'. *)
Theorem delete_closes_every_loan cfg isbn now d :
  well_formed cfg (Delete (ADMIN_USER cfg) isbn now) d →
  filter (active_on isbn)
    (loans (state (delete cfg (ADMIN_USER cfg) isbn now d))) = [] ∧
  if decide (foreign_keys d = true ∧ is_Some (books d !! isbn)
             ∧ Exists (loan_on isbn) (loans d))
  then
    raised (delete cfg (ADMIN_USER cfg) isbn now d) = Some IntegrityError ∧
    sent (delete cfg (ADMIN_USER cfg) isbn now d) = [] ∧
    books (state (delete cfg (ADMIN_USER cfg) isbn now d)) = books d
  else
    raised (delete cfg (ADMIN_USER cfg) isbn now d) = None ∧
    sent (delete cfg (ADMIN_USER cfg) isbn now d) = [(AdminDM, BookDeleted)] ∧
    books (state (delete cfg (ADMIN_USER cfg) isbn now d))
      = base.delete isbn (books d).
Proof.
  intros _. unfold delete. rewrite auth_check_admin.
  case_decide as Hfails.
  - destruct Hfails as (-> & Hbook & Hloan). simpl.
    rewrite !bool_decide_eq_true_2 by done. simpl.
    split; [apply filter_active_on_closed|done].
  - destruct (foreign_keys d) eqn:Hfk; simpl;
      [|split; [apply filter_active_on_closed|done]].
    case_bool_decide as Hbook; simpl;
      [|split; [apply filter_active_on_closed|done]].
    case_bool_decide as Hloan; simpl;
      [|split; [apply filter_active_on_closed|done]].
    exfalso. by apply Hfails.
Qed.

Lemma delete_closes_every_loan_witness :
  raised (delete cfg0 1 dune_isbn (noon + 3 * day) (enforcing after_return))
    = Some IntegrityError ∧
  books (state (delete cfg0 1 dune_isbn (noon + 3 * day) (enforcing after_return)))
    = books after_return ∧
  raised (delete cfg0 1 dune_isbn (noon + 3 * day) after_return) = None ∧
  books (state (delete cfg0 1 dune_isbn (noon + 3 * day) after_return))
    = base.delete dune_isbn (books after_return).
Proof.
  assert (Hon : well_formed cfg0 (Delete 1 dune_isbn (noon + 3 * day))
                  (enforcing after_return)) by by vm_compute.
  assert (Hoff : well_formed cfg0 (Delete 1 dune_isbn (noon + 3 * day)) after_return)
    by by vm_compute.
  pose proof (delete_closes_every_loan cfg0 dune_isbn (noon + 3 * day)
                (enforcing after_return) Hon) as [_ Hraise].
  pose proof (delete_closes_every_loan cfg0 dune_isbn (noon + 3 * day)
                after_return Hoff) as [_ Hgone].
  rewrite decide_True in Hraise.
  - rewrite decide_False in Hgone by (by intros [[=] _]).
    destruct Hraise as (Hr & _ & Hb). destruct Hgone as (Hr' & _ & Hb').
    by repeat split.
  - split; [done|]. split; [by eexists|]. apply Exists_cons_hd. done.
Defined.

(** ** The last copy *)

Lemma is_banned_registered u1 n1 u2 d :
  u1 ≠ u2 → users (registered u1 n1 d) !! u2 = users d !! u2.
Proof.
  intros Hne. unfold registered. destruct (users d !! u1); [done|].
  simpl. by rewrite lookup_insert_ne.
Qed.

(** X15.  When two different users could each borrow a book that has one
    available copy, with well-formed borrows (plain names and isbn), the
    one served second is told the book is not available: the first borrow
    leaves no copy, the second adds no loan. *)
Theorem last_copy_goes_to_the_first cfg u1 n1 u2 n2 isbn t1 t1' t2 t2' d :
  well_formed cfg (Borrow u1 n1 isbn t1 t1') d →
  well_formed cfg (Borrow u2 n2 isbn t2 t2') (state (borrow cfg u1 n1 isbn t1 t1' d)) →
  available_of d isbn = Some 1 → u1 ≠ u2 →
  borrow_gates cfg u1 isbn d = GateOpen →
  borrow_gates cfg u2 isbn d = GateOpen →
  sent (borrow cfg u2 n2 isbn t2 t2' (state (borrow cfg u1 n1 isbn t1 t1' d)))
    = respond (welcome u2 d ++ [NotAvailable]) true false ∧
  available_of
    (state (borrow cfg u2 n2 isbn t2 t2' (state (borrow cfg u1 n1 isbn t1 t1' d))))
    isbn = Some 0 ∧
  loans (state (borrow cfg u2 n2 isbn t2 t2' (state (borrow cfg u1 n1 isbn t1 t1' d))))
    = loans d ++ [new_loan cfg u1 isbn t1 t1'].
Proof.
  intros _ _ Hone Hne Hg1 Hg2.
  destruct (borrow_by_gate cfg u1 n1 isbn t1 t1' d) as (_ & _ & Hd1).
  rewrite Hg1 in Hd1.
  set (d1 := state (borrow cfg u1 n1 isbn t1 t1' d)) in *.
  apply borrow_gates_open in Hg2 as (b & Hb & _ & Hban & Hdup & Hlim).
  assert (Hav : available b = 1).
  { unfold available_of in Hone. rewrite Hb in Hone. by injection Hone. }
  assert (Husers : users d1 !! u2 = users d !! u2).
  { rewrite Hd1. simpl. by apply is_banned_registered. }
  assert (Hloans : loans d1 = loans d ++ [new_loan cfg u1 isbn t1 t1']).
  { rewrite Hd1. simpl. by rewrite loans_registered. }
  assert (Hbooks : books d1 !! isbn = Some (set_available (λ a, a - 1) b)).
  { rewrite Hd1. simpl. by rewrite books_registered, lookup_alter_eq, Hb. }
  assert (Hgate : borrow_gates cfg u2 isbn d1 = GateNotAvailable).
  { unfold borrow_gates, is_banned in *. rewrite Husers, Hban, Hloans, Hbooks.
    rewrite bool_decide_eq_false_2.
    - rewrite filter_app, filter_cons_False, filter_nil, app_nil_r
        by (intros [? _]; simpl in *; congruence).
      rewrite bool_decide_eq_false_2 by lia.
      rewrite bool_decide_eq_true_2; [done|]. simpl. lia.
    - rewrite Exists_app, Exists_cons, Exists_nil.
      intros [?|[[? _]|[]]]; simpl in *; congruence. }
  destruct (borrow_by_gate cfg u2 n2 isbn t2 t2' d1) as (-> & _ & ->).
  rewrite Hgate. simpl.
  unfold available_of, welcome.
  rewrite books_registered, loans_registered, Hbooks, Husers, Hloans. simpl.
  repeat split. f_equal. lia.
Qed.

Lemma last_copy_goes_to_the_first_witness :
  sent (borrow cfg0 43 "bob" dune_isbn (noon + 1) (noon + 1)
          (state (borrow cfg0 42 "ann" dune_isbn noon noon (library 1))))
    = [(DirectMessage, Welcome 43); (DirectMessage, NotAvailable)].
Proof.
  apply (last_copy_goes_to_the_first cfg0 42 "ann" 43 "bob" dune_isbn
           noon noon (noon + 1) (noon + 1) (library 1));
    [by vm_compute|by vm_compute|done..].
Defined.

(** ** Days remaining and overdue loans *)

Lemma day_pos : 0 < day.
Proof. done. Qed.

Lemma days_remaining_from t n δ :
  0 <= δ < day →
  days_remaining (t + timedelta n) (t + δ) = if decide (δ = 0) then n + 1 else n.
Proof.
  intros Hδ. unfold days_remaining, timedelta.
  pose proof day_pos as Hday.
  case_decide as Hz.
  - subst δ. replace (t + n * day - (t + 0)) with (n * day) by lia.
    by rewrite Z.div_mul by lia.
  - replace (t + n * day - (t + δ)) with ((day - δ) + (n - 1) * day) by lia.
    rewrite Z.div_add by lia. rewrite Z.div_small by lia. lia.
Qed.

(** X16.  A loan shows one day more than its period at the instant it is
    made and exactly its period for the rest of the first day: read [δ]
    microseconds (less than the 86400000000 of a day) after a well-formed
    borrow, the days remaining are LOAN_PERIOD + 1 for [δ = 0] and
    LOAN_PERIOD otherwise; right after a well-formed renew for [n] days
    (the new date a datetime) they are [n + 1], then [n]. *)
Theorem days_remaining_on_the_first_day cfg user_id user isbn t_b t_e l n now δ d :
  0 <= δ < 86400000000 →
  well_formed cfg (Borrow user_id user isbn t_b t_e) d →
  well_formed cfg (Renew (ADMIN_USER cfg) (loan_isbn l) (loan_userid l) n now) d →
  days_remaining (estrdate (new_loan cfg user_id isbn t_b t_e)) (t_e + δ)
    = (if decide (δ = 0) then LOAN_PERIOD cfg + 1 else LOAN_PERIOD cfg) ∧
  days_remaining
    (estrdate (rewritten cfg (Renew (ADMIN_USER cfg) (loan_isbn l) (loan_userid l) n now) l))
    (now + δ)
    = (if decide (δ = 0) then n + 1 else n).
Proof.
  intros Hδ _ _. split.
  - by apply days_remaining_from.
  - simpl. rewrite decide_True by done. simpl. by apply days_remaining_from.
Qed.

Lemma days_remaining_on_the_first_day_witness :
  days_remaining (estrdate (new_loan cfg0 42 dune_isbn noon noon)) (noon + 3600000000)
    = 14.
Proof.
  apply (days_remaining_on_the_first_day cfg0 42 "ann" dune_isbn noon noon
           returned_loan 7 noon 3600000000 (library 3)); by vm_compute.
Defined.

Lemma days_remaining_overdue due_at now : days_remaining due_at now <= 0 ↔ due_at < now.
Proof.
  unfold days_remaining. pose proof day_pos as Hday.
  pose proof (Z.div_mod (due_at - now) day) as Hdm.
  pose proof (Z.mod_pos_bound (due_at - now) day Hday) as Hmod.
  split; intros H; nia.
Qed.

(** X17.  The administrator's listing of overdue loans and the notices of
    due agree: a loan is listed under scope 'overdue' exactly when it is
    in the table, not returned, and due would class it overdue at the same
    clock reading.  Every overdue loan is also listed under 'out', a scope
    that is none of the four lists nothing, and a caller that is not the
    administrator is sent no row. *)
Theorem overdue_listing_matches_due cfg caller scope now d l :
  (l ∈ (loans_ cfg (ADMIN_USER cfg) "overdue" now d).1 ↔
   l ∈ loans d ∧ returned l = false ∧ days_remaining (estrdate l) now <= 0) ∧
  ((loans_ cfg (ADMIN_USER cfg) "overdue" now d).1
     ⊆ (loans_ cfg (ADMIN_USER cfg) "out" now d).1) ∧
  (scope ∉ ["all"; "returned"; "out"; "overdue"] →
   (loans_ cfg (ADMIN_USER cfg) scope now d).1 = []) ∧
  (caller ≠ ADMIN_USER cfg → (loans_ cfg caller scope now d).1 = []).
Proof.
  unfold loans_. rewrite auth_check_admin. simpl.
  split; [|split; [|split]].
  - rewrite list_elem_of_filter, days_remaining_overdue. tauto.
  - intros x. rewrite !list_elem_of_filter. tauto.
  - intros Hscope. repeat case_decide; try done; subst; exfalso; apply Hscope;
      set_solver.
  - intros Hne. by rewrite auth_check_other.
Qed.

Lemma overdue_listing_matches_due_witness :
  (loans_ cfg0 1 "late" (noon + 30 * day)
     (step cfg0 (Borrow 42 "ann" dune_isbn noon noon) (library 3))).1 = [] ∧
  (loans_ cfg0 42 "overdue" (noon + 30 * day)
     (step cfg0 (Borrow 42 "ann" dune_isbn noon noon) (library 3))).1 = [].
Proof.
  destruct (overdue_listing_matches_due cfg0 42 "late" (noon + 30 * day)
              (step cfg0 (Borrow 42 "ann" dune_isbn noon noon) (library 3))
              returned_loan) as (_ & _ & Hscope & _).
  destruct (overdue_listing_matches_due cfg0 42 "overdue" (noon + 30 * day)
              (step cfg0 (Borrow 42 "ann" dune_isbn noon noon) (library 3))
              returned_loan) as (_ & _ & _ & Hcaller).
  split.
  - apply Hscope. intros Hin.
    repeat (apply elem_of_cons in Hin as [[=]|Hin]). by apply elem_of_nil in Hin.
  - by apply Hcaller.
Defined.

(** ** renew *)

Lemma fmap_unchanged_on (g : loan → loan) (ls : list loan) :
  (∀ l, l ∈ ls → g l = l) → g <$> ls = ls.
Proof.
  intros Hg. etrans; [|apply list_fmap_id]. apply list_fmap_ext.
  intros k l Hk. apply Hg. by eapply list_elem_of_lookup_2.
Qed.

(** X18.  A well-formed renew (plain isbn, the new date a datetime) by
    the administrator never changes the catalogue, the users, or which
    loans are returned; for a user and book that have no loan row it
    changes nothing at all and still answers 'Book renewed.'. *)
Theorem renew_without_loan cfg isbn userid n now d :
  well_formed cfg (Renew (ADMIN_USER cfg) isbn userid n now) d →
  books (state (renew cfg (ADMIN_USER cfg) isbn userid n now d)) = books d ∧
  users (state (renew cfg (ADMIN_USER cfg) isbn userid n now d)) = users d ∧
  returned <$> loans (state (renew cfg (ADMIN_USER cfg) isbn userid n now d))
    = returned <$> loans d ∧
  (¬ Exists (loan_of isbn userid) (loans d) →
   renew cfg (ADMIN_USER cfg) isbn userid n now d
     = Outcome d [(AdminDM, BookRenewed)] None).
Proof.
  intros _. unfold renew. rewrite auth_check_admin. simpl.
  split; [done|]. split; [done|]. split.
  - unfold update_where. rewrite <- list_fmap_compose. apply list_fmap_ext.
    intros _ l _. simpl. by case_decide.
  - intros Hnone.
    assert (Hsame : update_where (loan_of isbn userid)
                      (set_estrdate (now + timedelta n)) (loans d) = loans d).
    { unfold update_where. apply fmap_unchanged_on. intros l Hl.
      rewrite decide_False; [done|]. intros Hof. apply Hnone.
      apply Exists_exists. by exists l. }
    destruct d as [bs us ls fk]. unfold with_loans. simpl in *. by rewrite Hsame.
Qed.

Lemma renew_without_loan_witness :
  renew cfg0 1 dune_isbn 43 7 noon after_return
    = Outcome after_return [(AdminDM, BookRenewed)] None.
Proof.
  assert (Hwf : well_formed cfg0 (Renew 1 dune_isbn 43 7 noon) after_return)
    by by vm_compute.
  destruct (renew_without_loan cfg0 dune_isbn 43 7 noon after_return Hwf)
    as (_ & _ & _ & Hnone).
  apply Hnone. vm_compute. intros H. apply Exists_cons in H as [[_ [=]]|H].
  by apply Exists_nil in H.
Defined.
